(** * Order processing of [p3.py]: a shallow embedding and its properties

    The development follows [src/p3.py] top to bottom: the data classes, the
    CSV reader, [Inventory], the pricing functions, [BankAccount] and
    [process_order].

    - Python [float] is IEEE 754 binary64: it is Rocq's primitive [float],
      whose operations the kernel evaluates and [FloatAxioms] specifies
      through [SpecFloat].
    - Python [int] is unbounded: it is [Z].
    - Python [str] is [string]; the string methods follow CPython on 7-bit
      text and leave other characters alone.
    - A [dict] is a [gmap].
    - Objects mutated in place ([Inventory], [BankAccount]) are threaded
      through a state monad whose result is either a value or the exception
      raised, so that the state left behind by a failing call is visible. *)

Set Warnings "-inexact-float".

From Stdlib Require Import ZArith Floats String Ascii List Bool Lia.
From Stdlib Require Uint63.
From stdpp Require Import gmap strings list fin_maps.

Local Open Scope string_scope.
Local Open Scope Z_scope.

(** ** The Python runtime the program relies on *)

Module Py.

(** *** Exceptions and results *)

Inductive exn : Type :=
| KeyError (msg : string)
| ValueError (msg : string)
| TypeError (msg : string)
| OverflowError (msg : string).

Inductive res (A : Type) : Type :=
| Ok (a : A)
| Raise (e : exn).
Arguments Ok {A} a.
Arguments Raise {A} e.

Definition is_KeyError {A} (r : res A) : bool :=
  match r with Raise (KeyError _) => true | _ => false end.
Definition is_ValueError {A} (r : res A) : bool :=
  match r with Raise (ValueError _) => true | _ => false end.
Definition is_TypeError {A} (r : res A) : bool :=
  match r with Raise (TypeError _) => true | _ => false end.
Definition is_Ok {A} (r : res A) : bool :=
  match r with Ok _ => true | Raise _ => false end.

(** A computation over a mutable object of type [S]: it returns a value or
    raises, and in both cases leaves a state behind. *)
Definition M (S A : Type) : Type := S -> res A * S.

Definition ret {S A} (a : A) : M S A := fun s => (Ok a, s).
Definition raise {S A} (e : exn) : M S A := fun s => (Raise e, s).
Definition bind {S A B} (m : M S A) (k : A -> M S B) : M S B :=
  fun s => match m s with
           | (Ok a, s') => k a s'
           | (Raise e, s') => (Raise e, s')
           end.
Definition get {S} : M S S := fun s => (Ok s, s).
Definition put {S} (s : S) : M S unit := fun _ => (Ok tt, s).
Definition lift {S A} (r : res A) : M S A := fun s => (r, s).

(** [for x in l: body x] *)
Fixpoint for_each {S A} (body : A -> M S unit) (l : list A) : M S unit :=
  match l with
  | [] => ret tt
  | x :: l' => bind (body x) (fun _ => for_each body l')
  end.

(** *** Numbers *)

Local Open Scope float_scope.

(** [float(n)] for an [int]: rounded to nearest, ties to even;
    [OverflowError] when the result is out of range. *)
Definition float_of_int (n : Z) : res float :=
  match binary_normalize prec emax n 0%Z false with
  | S754_infinity _ => Raise (OverflowError "int too large to convert to float")
  | sf => Ok (SF2Prim sf)
  end.

(** [max(a, b)] on two floats: the first argument is kept unless [b > a]. *)
Definition max (a b : float) : float := if a <? b then b else a.

(** Quotient of [n] by [d > 0] rounded to the nearest integer, ties to even. *)
Definition rne_div (n d : Z) : Z :=
  let q := (n / d)%Z in
  let r := (n mod d)%Z in
  match (2 * r ?= d)%Z with
  | Lt => q
  | Gt => (q + 1)%Z
  | Eq => if Z.even q then q else (q + 1)%Z
  end.

(** [round(x, ndigits)] for [0 <= ndigits]: [x] is rounded, as an exact
    binary fraction, to [ndigits] decimals with ties to even, and the float
    nearest to that decimal is returned. Infinities, NaN and zeros round to
    themselves, and the sign of [x] is kept. *)
Definition round (x : float) (ndigits : Z) : float :=
  match Prim2SF x with
  | S754_finite s m e =>
      let p := (10 ^ ndigits)%Z in
      let k := if (0 <=? e)%Z then (Zpos m * 2 ^ e * p)%Z
               else rne_div (Zpos m * p) (2 ^ (- e)) in
      match k with
      | Zpos k' =>
          SF2Prim (SFdiv prec emax (S754_finite s k' 0) (S754_finite false (Z.to_pos p) 0))
      | _ => if s then PrimFloat.neg_zero else PrimFloat.zero
      end
  | _ => x
  end.

(** *** Strings *)

Definition is_space (c : ascii) : bool :=
  let n := N_of_ascii c in
  ((9 <=? n) && (n <=? 13) || (28 <=? n) && (n <=? 32))%N.

Definition is_linebreak (c : ascii) : bool :=
  let n := N_of_ascii c in
  ((10 <=? n) && (n <=? 13) || (28 <=? n) && (n <=? 30))%N.

Definition upper_char (c : ascii) : ascii :=
  let n := N_of_ascii c in
  if ((97 <=? n) && (n <=? 122))%N then ascii_of_N (n - 32) else c.

Definition lower_char (c : ascii) : ascii :=
  let n := N_of_ascii c in
  if ((65 <=? n) && (n <=? 90))%N then ascii_of_N (n + 32) else c.

Fixpoint map_chars (f : ascii -> ascii) (s : string) : string :=
  match s with
  | EmptyString => EmptyString
  | String c r => String (f c) (map_chars f r)
  end.

Definition upper : string -> string := map_chars upper_char.
Definition lower : string -> string := map_chars lower_char.

Fixpoint lstrip (s : string) : string :=
  match s with
  | EmptyString => EmptyString
  | String c r => if is_space c then lstrip r else s
  end.

Fixpoint rstrip (s : string) : string :=
  match s with
  | EmptyString => EmptyString
  | String c r =>
      match rstrip r with
      | EmptyString => if is_space c then EmptyString else String c EmptyString
      | r' => String c r'
      end
  end.

Definition strip (s : string) : string := lstrip (rstrip s).

(** [s.split(sep)] for a one-character separator: never empty. *)
Fixpoint split (sep : ascii) (s : string) : list string :=
  match s with
  | EmptyString => [EmptyString]
  | String c r =>
      if Ascii.eqb c sep then EmptyString :: split sep r
      else match split sep r with
           | h :: t => String c h :: t
           | [] => [String c EmptyString]
           end
  end.

(** [s.splitlines()]: a carriage return followed by a line feed is one
    boundary, and a final boundary opens no further line. *)
Fixpoint splitlines (s : string) : list string :=
  match s with
  | EmptyString => []
  | String c r =>
      if is_linebreak c then
        EmptyString ::
          match r with
          | String c' r' =>
              if Ascii.eqb c "013" && Ascii.eqb c' "010" then splitlines r'
              else splitlines r
          | EmptyString => []
          end
      else match splitlines r with
           | h :: t => String c h :: t
           | [] => [String c EmptyString]
           end
  end.

(** Truth value of a string: empty strings are false. *)
Definition truthy (s : string) : bool :=
  match s with EmptyString => false | _ => true end.

End Py.

Import Py.

Notation "'let!' x ':=' m 'in' k" := (bind m (fun x => k))
  (at level 10, x name, m at level 100, k at level 200).
Notation "'run!' m 'in' k" := (bind m (fun _ => k))
  (at level 10, m at level 100, k at level 200).

(** ** Models *)

Module Product.
Record t : Type := mk {
  sku : string;
  name : string;
  price : float;
  category : string
}.
End Product.

Module OrderItem.
Record t : Type := mk {
  sku : string;
  qty : Z
}.
End OrderItem.

Module Order.
Record t : Type := mk {
  order_id : string;
  items : list OrderItem.t;
  coupon_code : option string
}.
End Order.

(** ** CSV parsing *)

Section CSV.

(** [float(s)] on a string either returns a float or raises [ValueError];
    which strings it accepts is left open. *)
Variable float_of_str : string -> option float.

Definition to_float (s : string) : res float :=
  match float_of_str s with
  | Some x => Ok x
  | None => Raise (ValueError ("could not convert string to float: " ++ s)%string)
  end.

(** [[ln.strip() for ln in text.splitlines() if ln.strip()]] *)
Definition nonblank_lines (text : string) : list string :=
  List.map strip (List.filter (fun ln => truthy (strip ln)) (splitlines text)).

(** [[part.strip() for part in ln.split(",")]] *)
Definition fields (ln : string) : list string :=
  List.map strip (split "," ln).

Definition is_header (ln : string) : bool :=
  bool_decide (take 3 (List.map lower (fields ln)) = ["sku"; "name"; "price"]).

(** [lines[start:]] *)
Definition data_rows (text : string) : list string :=
  match nonblank_lines text with
  | [] => []
  | first :: rest => if is_header first then rest else first :: rest
  end.

Definition parse_row (ln : string) : res Product.t :=
  match fields ln with
  | sku :: name :: price_raw :: more =>
      let category := match more with c :: _ => c | [] => "general" end in
      match to_float price_raw with
      | Ok price => Ok (Product.mk sku name price category)
      | Raise e => Raise e
      end
  | _ => Raise (ValueError ("Malformed product row: " ++ ln)%string)
  end.

(** The loop over the data rows, [products] being the list built so far. *)
Fixpoint parse_rows (rows : list string) (products : list Product.t)
  : res (list Product.t) :=
  match rows with
  | [] => Ok products
  | ln :: rows' =>
      match parse_row ln with
      | Ok p => parse_rows rows' (products ++ [p])
      | Raise e => Raise e
      end
  end.

Definition parse_products_csv (text : string) : res (list Product.t) :=
  parse_rows (data_rows text) [].

End CSV.

(** ** Inventory *)

Record Inventory : Type := mkInventory {
  _stock : gmap string Z;
  _catalog : gmap string Product.t
}.

Module Inv.

(** [Inventory()] *)
Definition new : Inventory := mkInventory ∅ ∅.

Definition get_stock (self : Inventory) (sku : string) : Z :=
  default 0 (_stock self !! sku).

Definition has_sku (self : Inventory) (sku : string) : bool :=
  bool_decide (is_Some (_catalog self !! sku)).

(** [self._catalog[sku].price]: a missing key raises [KeyError]. *)
Definition get_price (self : Inventory) (sku : string) : res float :=
  match _catalog self !! sku with
  | Some p => Ok (Product.price p)
  | None => Raise (KeyError sku)
  end.

Definition set_stock (sku : string) (n : Z) : M Inventory unit :=
  fun self => (Ok tt, mkInventory (<[sku := n]> (_stock self)) (_catalog self)).

Definition add_product (product : Product.t) : M Inventory unit :=
  fun self =>
    let self' := mkInventory (_stock self)
                   (<[Product.sku product := product]> (_catalog self)) in
    match _stock self' !! Product.sku product with
    | None => set_stock (Product.sku product) 0 self'
    | Some _ => (Ok tt, self')
    end.

Definition add_stock (sku : string) (qty : Z) : M Inventory unit :=
  if qty <=? 0 then raise (ValueError "qty must be positive")
  else
    let! self := get in
    if negb (bool_decide (is_Some (_catalog self !! sku)))
    then raise (KeyError ("unknown sku: " ++ sku)%string)
    else set_stock sku (get_stock self sku + qty).

Definition remove_stock (sku : string) (qty : Z) : M Inventory unit :=
  if qty <=? 0 then raise (ValueError "qty must be positive")
  else
    let! self := get in
    if get_stock self sku <? qty
    then raise (ValueError "insufficient stock")
    else set_stock sku (get_stock self sku - qty).

End Inv.

(** ** Coupons and pricing *)

Definition apply_coupon (subtotal : float) (code : option string) : float :=
  match code with
  | None => subtotal
  | Some code =>
      if negb (truthy code) then subtotal
      else
        let code := upper (strip code) in
        if bool_decide (code = "SAVE10")
        then Py.max (subtotal - subtotal * 0.10)%float 0.0%float
        else if bool_decide (code = "FLAT50")
        then if (200 <=? subtotal)%float
             then Py.max (subtotal - 50)%float 0.0%float
             else subtotal
        else subtotal
  end.

(** [compute_tax(amount, rate)] *)
Definition compute_tax_rate (amount rate : float) : float :=
  let tax := (amount * rate)%float in
  Py.round tax 2.

(** [compute_tax(amount)] with the default rate. *)
Definition compute_tax (amount : float) : float :=
  compute_tax_rate amount 0.18%float.

(** ** Payments *)

(** A Python object as [deposit] may receive it: [deposit] inspects the
    dynamic type of its argument. *)
Inductive pyobj : Type :=
| PyInt (n : Z)
| PyFloat (x : float)
| PyStr (s : string)
| PyNone.

Record BankAccount : Type := mkBankAccount {
  owner : string;
  balance : float
}.

Module Bank.

(** [BankAccount(owner, balance)] for a float [balance]. *)
Definition new (owner : string) (balance : float) : BankAccount :=
  mkBankAccount owner balance.

Definition add_balance (x : float) : M BankAccount unit :=
  fun self => (Ok tt, mkBankAccount (owner self) (balance self + x)%float).

Definition sub_balance (x : float) : M BankAccount unit :=
  fun self => (Ok tt, mkBankAccount (owner self) (balance self - x)%float).

Definition deposit (amount : pyobj) : M BankAccount unit :=
  match amount with
  | PyInt n =>
      if n <=? 0 then raise (ValueError "Deposit must be positive")
      else let! x := lift (float_of_int n) in add_balance x
  | PyFloat x =>
      if (x <=? 0)%float then raise (ValueError "Deposit must be positive")
      else add_balance x
  | _ => raise (TypeError "amount must be numeric")
  end.

Definition withdraw (amount : float) : M BankAccount unit :=
  if (amount <=? 0)%float then raise (ValueError "Withdraw must be positive")
  else
    let! self := get in
    if (balance self <? amount)%float
    then raise (ValueError "Insufficient funds")
    else sub_balance amount.

End Bank.

(** ** Ordering *)

Module Receipt.
Record t : Type := mk {
  order_id : string;
  items : list (string * Z);
  subtotal : float;
  discounted : float;
  tax : float;
  grand_total : float;
  timestamp : string;
  coupon_code : string
}.
End Receipt.

(** The loop of [calculate_subtotal], [subtotal] being the running sum;
    [it.qty * price] converts the integer quantity to a float. *)
Fixpoint subtotal_loop (inv : Inventory) (items : list OrderItem.t)
    (subtotal : float) : res float :=
  match items with
  | [] => Ok subtotal
  | it :: items' =>
      if negb (Inv.has_sku inv (OrderItem.sku it))
      then Raise (KeyError ("unknown sku: " ++ OrderItem.sku it)%string)
      else
        match Inv.get_price inv (OrderItem.sku it) with
        | Raise e => Raise e
        | Ok price =>
            match float_of_int (OrderItem.qty it) with
            | Raise e => Raise e
            | Ok q => subtotal_loop inv items' (subtotal + q * price)%float
            end
        end
  end.

Definition calculate_subtotal (order : Order.t) (inv : Inventory) : res float :=
  subtotal_loop inv (Order.items order) 0.0%float.

(** The first loop of [process_order]: it only reads the inventory. *)
Fixpoint validate_items (inv : Inventory) (items : list OrderItem.t) : res unit :=
  match items with
  | [] => Ok tt
  | item :: items' =>
      if negb (Inv.has_sku inv (OrderItem.sku item))
      then Raise (KeyError ("unknown sku: " ++ OrderItem.sku item)%string)
      else if Inv.get_stock inv (OrderItem.sku item) <? OrderItem.qty item
      then Raise (ValueError ("out of stock: " ++ OrderItem.sku item)%string)
      else validate_items inv items'
  end.

(** The two objects [process_order] mutates. *)
Definition World : Type := Inventory * BankAccount.

Definition on_inv {A} (m : M Inventory A) : M World A :=
  fun w => let (r, inv') := m (fst w) in (r, (inv', snd w)).

Definition on_payer {A} (m : M BankAccount A) : M World A :=
  fun w => let (r, payer') := m (snd w) in (r, (fst w, payer')).

(** [order.coupon_code or ""] *)
Definition coupon_or_empty (code : option string) : string :=
  match code with
  | Some c => if truthy c then c else ""
  | None => ""
  end.

Definition grand_total_of (discounted : float) : float :=
  (discounted + compute_tax discounted)%float.

(** [process_order(order, inv, payer)]; [now] is the reading of the clock
    that goes into the receipt. *)
Definition process_order (now : string) (order : Order.t) : M World Receipt.t :=
  let! w := get in
  run! lift (validate_items (fst w) (Order.items order)) in
  let! subtotal := lift (calculate_subtotal order (fst w)) in
  let discounted := apply_coupon subtotal (Order.coupon_code order) in
  let tax := compute_tax discounted in
  let grand_total := (discounted + tax)%float in
  run! on_payer (Bank.withdraw grand_total) in
  run! for_each
         (fun it => on_inv (Inv.remove_stock (OrderItem.sku it) (OrderItem.qty it)))
         (Order.items order) in
  ret (Receipt.mk
         (Order.order_id order)
         (List.map (fun it => (OrderItem.sku it, OrderItem.qty it)) (Order.items order))
         subtotal discounted tax grand_total now
         (coupon_or_empty (Order.coupon_code order))).

(** ** The demo scenario *)

Definition demo_products : list Product.t :=
  [ Product.mk "SKU1" "Pen" 10.5%float "stationery";
    Product.mk "SKU2" "Book" 99.0%float "books" ].

(** The inventory of the demo: both products added, then 10 and 5 in stock. *)
Definition demo_inventory : Inventory :=
  snd ((run! for_each Inv.add_product demo_products in
        run! Inv.add_stock "SKU1" 10 in
        Inv.add_stock "SKU2" 5) Inv.new).

Definition demo_order : Order.t :=
  Order.mk "ORD-001" [OrderItem.mk "SKU1" 2; OrderItem.mk "SKU2" 1] (Some "SAVE10").

(** Orders used as examples: the same product twice, an unknown identifier,
    too large a quantity, and both. *)
Definition twice_order : Order.t :=
  Order.mk "ORD-002" [OrderItem.mk "SKU1" 6; OrderItem.mk "SKU1" 6] None.

Definition unknown_order : Order.t :=
  Order.mk "ORD-003" [OrderItem.mk "SKU1" 1; OrderItem.mk "NOPE" 1] None.

Definition short_order : Order.t :=
  Order.mk "ORD-004" [OrderItem.mk "SKU1" 1; OrderItem.mk "SKU2" 20] None.

Definition short_then_unknown_order : Order.t :=
  Order.mk "ORD-005" [OrderItem.mk "SKU1" 20; OrderItem.mk "NOPE" 1] None.

(** A reading of [float(s)] on plain decimal numerals ([digits] or
    [digits.digits]): the float nearest to the decimal. It is used to run the
    parser on examples; the properties of the parser hold for any reading. *)
Fixpoint digits_value (s : string) (acc : Z) : option Z :=
  match s with
  | EmptyString => Some acc
  | String c r =>
      let n := Z.of_N (N_of_ascii c) in
      if (48 <=? n) && (n <=? 57) then digits_value r (10 * acc + (n - 48))
      else None
  end.

Definition nearest_float (n : Z) (k : nat) : float :=
  match n with
  | Zpos p =>
      SF2Prim (SFdiv prec emax (S754_finite false p 0)
                 (S754_finite false (Z.to_pos (10 ^ Z.of_nat k)) 0))
  | _ => 0%float
  end.

Definition decimal_float_of_str (s : string) : option float :=
  match split "." s with
  | [i] =>
      if truthy i then n ← digits_value i 0; Some (nearest_float n 0) else None
  | [i; f] =>
      if truthy i && truthy f
      then n ← digits_value (i ++ f)%string 0; Some (nearest_float n (String.length f))
      else None
  | _ => None
  end.


(** ** Vocabulary of the properties *)

(** The operations of an [Inventory], as a caller may issue them. *)
Inductive inv_op : Type :=
| AddProduct (product : Product.t)
| AddStock (sku : string) (qty : Z)
| RemoveStock (sku : string) (qty : Z)
| GetStock (sku : string)
| GetPrice (sku : string)
| HasSku (sku : string).

(** The inventory an operation leaves behind, whether it returned or raised. *)
Definition run_op (op : inv_op) (inv : Inventory) : Inventory :=
  match op with
  | AddProduct p => snd (Inv.add_product p inv)
  | AddStock sku qty => snd (Inv.add_stock sku qty inv)
  | RemoveStock sku qty => snd (Inv.remove_stock sku qty inv)
  | GetStock _ | GetPrice _ | HasSku _ => inv
  end.

Definition run_ops (ops : list inv_op) (inv : Inventory) : Inventory :=
  fold_left (fun i op => run_op op i) ops inv.

Definition stock_nonneg (inv : Inventory) : Prop :=
  forall sku n, _stock inv !! sku = Some n -> 0 <= n.

Definition stock_in_catalog (inv : Inventory) : Prop :=
  forall sku, is_Some (_stock inv !! sku) -> is_Some (_catalog inv !! sku).

(** [x < 0] is false. *)
Definition not_negative (x : float) : Prop := (x <? 0)%float = false.

(** [x >= 0] is true. *)
Definition at_least_zero (x : float) : Prop := (0 <=? x)%float = true.

(** The coupon code as [apply_coupon] compares it. *)
Definition normalized (code : string) : string := upper (strip code).

(** An item of the order whose identifier the catalog lacks. *)
Definition unknown_item (inv : Inventory) (it : OrderItem.t) : Prop :=
  Inv.has_sku inv (OrderItem.sku it) = false.

(** An item of the order that asks for more than is in stock. *)
Definition short_item (inv : Inventory) (it : OrderItem.t) : Prop :=
  Inv.get_stock inv (OrderItem.sku it) < OrderItem.qty it.

(** Zero of either sign, a positive finite number or plus infinity. *)
Definition sf_nonneg (x : spec_float) : bool :=
  match x with
  | S754_zero _ => true
  | S754_infinity s | S754_finite s _ _ => negb s
  | S754_nan => false
  end.

(** A positive finite number or plus infinity. *)
Definition sf_pos (x : spec_float) : bool :=
  match x with
  | S754_infinity s | S754_finite s _ _ => negb s
  | _ => false
  end.

(** The record [mrs] holds [M] shifted right by [k] bits, and its two
    rounding bits are clear when no set bit was shifted out. *)
Definition shifted (M k : Z) (mrs : shr_record) : Prop :=
  shr_m mrs = M / 2 ^ k
  /\ (M mod 2 ^ k = 0 -> shr_r mrs = false /\ shr_s mrs = false).

(** The value of the finite number [m * 2 ^ e], counted in units of the
    least positive binary64 number. *)
Definition scaled (m : positive) (e : Z) : Z := Zpos m * 2 ^ (e - emin).

(** ** The other scripts: [calculator.py] and [p1.py] *)



Module Calculator.


Definition divide (a b : float) : res float :=
  if (b =? 0)%float then Raise (ValueError "Cannot divide by zero")
  else Ok (a / b)%float.




End Calculator.

Module P1.

(** [n % 2 == 0]; Python's remainder takes the sign of the divisor, as
    [Z.modulo] does. *)
Definition is_even (n : Z) : bool := n mod 2 =? 0.

End P1.

(** ** Further vocabulary *)

(** The quantity an order asks of one identifier, all its items together. *)
Fixpoint ordered_qty (sku : string) (items : list OrderItem.t) : Z :=
  match items with
  | [] => 0
  | it :: items' =>
      (if bool_decide (OrderItem.sku it = sku) then OrderItem.qty it else 0)
      + ordered_qty sku items'
  end.

(** All characters of a string are whitespace. *)
Fixpoint all_space (s : string) : bool :=
  match s with
  | EmptyString => true
  | String c r => is_space c && all_space r
  end.


(** Zero of either sign, a negative finite number or minus infinity. *)
Definition sf_nonpos (x : spec_float) : bool :=
  match x with
  | S754_zero _ => true
  | S754_infinity s | S754_finite s _ _ => s
  | S754_nan => false
  end.


(** ** The model run on the assertions of [test_p3.py] and on the demo *)

Example splitlines_sample :
  splitlines ("a" ++ String "013" (String "010" "b") ++ String "010" "" ++ String "010" "c")%string
  = ["a"; "b"; ""; "c"].
Proof. reflexivity. Qed.

Example round_half_even_samples :
  Py.round 0.125%float 2 = 0.12%float
  /\ Py.round 0.375%float 2 = 0.38%float
  /\ Py.round 2.675%float 2 = 2.67%float
  /\ Py.round (-0.001)%float 2 = (-0)%float.
Proof. repeat split; vm_compute; reflexivity. Qed.

Example parse_products_csv_skips_header :
  parse_products_csv decimal_float_of_str
    ("sku,name,price,category" ++ String "010" "SKU1,Pen,10.50,stationery"
       ++ String "010" "SKU2,Notebook,25.00,books" ++ String "010" "")%string
  = Ok [Product.mk "SKU1" "Pen" 10.5%float "stationery";
        Product.mk "SKU2" "Notebook" 25%float "books"].
Proof. vm_compute. reflexivity. Qed.

Example parse_products_csv_blank :
  parse_products_csv decimal_float_of_str ("   " ++ String "010" "")%string = Ok [].
Proof. vm_compute. reflexivity. Qed.

Example add_stock_accumulates :
  let inv := snd ((run! Inv.add_product (Product.mk "SKU1" "Pen" 5%float "general") in
                   run! Inv.add_stock "SKU1" 2 in
                   Inv.add_stock "SKU1" 3) Inv.new) in
  Inv.get_stock inv "SKU1" = 5.
Proof. vm_compute. reflexivity. Qed.

Example add_stock_validations :
  let inv := snd (Inv.add_product (Product.mk "SKU1" "Pen" 5%float "general") Inv.new) in
  fst (Inv.add_stock "SKU1" 0 inv) = Raise (ValueError "qty must be positive")
  /\ fst (Inv.add_stock "UNKNOWN" 1 inv) = Raise (KeyError "unknown sku: UNKNOWN").
Proof. split; vm_compute; reflexivity. Qed.

Example remove_stock_validations :
  let inv := snd ((run! Inv.add_product (Product.mk "SKU1" "Pen" 5%float "general") in
                   Inv.add_stock "SKU1" 1) Inv.new) in
  fst (Inv.remove_stock "SKU1" 2 inv) = Raise (ValueError "insufficient stock")
  /\ fst (Inv.remove_stock "SKU1" 0 inv) = Raise (ValueError "qty must be positive").
Proof. split; vm_compute; reflexivity. Qed.

Example compute_tax_sample : compute_tax 10.015%float = 1.8%float.
Proof. vm_compute. reflexivity. Qed.

Example calculate_subtotal_sample :
  let inv := snd ((run! Inv.add_product (Product.mk "SKU1" "Pen" 10%float "general") in
                   Inv.add_product (Product.mk "SKU2" "Book" 5%float "general")) Inv.new) in
  calculate_subtotal (Order.mk "ORD1" [OrderItem.mk "SKU1" 2; OrderItem.mk "SKU2" 3] None) inv
  = Ok 35%float
  /\ calculate_subtotal (Order.mk "ORD2" [OrderItem.mk "MISSING" 1] None) Inv.new
     = Raise (KeyError "unknown sku: MISSING").
Proof. split; vm_compute; reflexivity. Qed.

Example demo_run :
  let '(r, (inv, acct)) :=
    process_order "2026-01-01T00:00:00" demo_order (demo_inventory, Bank.new "Shaik" 500%float) in
  r = Ok (Receipt.mk "ORD-001" [("SKU1", 2); ("SKU2", 1)]
            120%float 108%float 19.44%float 127.44%float "2026-01-01T00:00:00" "SAVE10")
  /\ Inv.get_stock inv "SKU1" = 8 /\ Inv.get_stock inv "SKU2" = 4
  /\ balance acct = 372.56%float.
Proof. vm_compute. repeat split; reflexivity. Qed.

(** ** Facts about binary64 arithmetic *)

Module FloatFacts.

Local Open Scope float_scope.

Lemma Prim2SF_zero : Prim2SF 0 = S754_zero false.
Proof. reflexivity. Qed.

Lemma leb_zero_l x : (0 <=? x) = sf_nonneg (Prim2SF x).
Proof.
  rewrite FloatAxioms.leb_spec, Prim2SF_zero.
  destruct (Prim2SF x) as [s|s| |s m e]; try destruct s; reflexivity.
Qed.

Lemma ltb_zero_r x : (x <? 0) = true -> sf_nonneg (Prim2SF x) = false.
Proof.
  rewrite FloatAxioms.ltb_spec, Prim2SF_zero.
  destruct (Prim2SF x) as [s|s| |s m e]; try destruct s; cbn; congruence.
Qed.

Lemma leb_zero_r x : (x <=? 0) = false -> is_nan x = false -> sf_pos (Prim2SF x) = true.
Proof.
  unfold is_nan. rewrite FloatAxioms.leb_spec, FloatAxioms.eqb_spec, Prim2SF_zero.
  destruct (Prim2SF x) as [s|s| |s m e]; try destruct s; cbn; congruence.
Qed.

Lemma SFcompare_antisym x y :
  SFcompare y x = option_map CompOpp (SFcompare x y).
Proof.
  destruct x as [sx|sx| |sx mx ex], y as [sy|sy| |sy my ey];
    try destruct sx; try destruct sy; try reflexivity; cbn;
    rewrite (Z.compare_antisym ex ey);
    destruct (ex ?= ey)%Z; cbn; try reflexivity;
    pose proof (Pos.compare_antisym mx my) as HA; unfold Pos.compare in HA;
    now rewrite HA.
Qed.

Lemma leb_not_ltb x y : (x <=? y) = true -> (y <? x) = false.
Proof.
  rewrite FloatAxioms.leb_spec, FloatAxioms.ltb_spec. unfold SFleb, SFltb.
  rewrite (SFcompare_antisym (Prim2SF x) (Prim2SF y)).
  destruct (SFcompare (Prim2SF x) (Prim2SF y)) as [[]|]; cbn; congruence.
Qed.

(** *** Rounding keeps the sign *)

Lemma shr_1_nonneg mrs : (0 <= shr_m mrs)%Z -> (0 <= shr_m (shr_1 mrs))%Z.
Proof.
  destruct mrs as [m r s]; cbn.
  destruct m as [|[p|p|]|[p|p|]]; cbn; lia.
Qed.

Lemma iter_shr_1_nonneg p : forall mrs,
  (0 <= shr_m mrs)%Z -> (0 <= shr_m (SpecFloat.iter_pos shr_1 p mrs))%Z.
Proof.
  induction p as [p IH|p IH|]; intros mrs H; cbn.
  - apply IH, IH, shr_1_nonneg, H.
  - apply IH, IH, H.
  - apply shr_1_nonneg, H.
Qed.

Lemma shr_fexp_nonneg m e l :
  (0 <= m)%Z -> (0 <= shr_m (fst (shr_fexp prec emax m e l)))%Z.
Proof.
  intros H. unfold shr_fexp, shr.
  assert (H0 : (0 <= shr_m (shr_record_of_loc m l))%Z)
    by (destruct l as [|[]]; exact H).
  destruct (fexp prec emax (Zdigits2 m + e) - e)%Z; cbn; auto.
  now apply iter_shr_1_nonneg.
Qed.

Lemma round_nearest_even_nonneg m l :
  (0 <= m)%Z -> (0 <= round_nearest_even m l)%Z.
Proof.
  intros H. destruct l as [|[]]; cbn; try lia.
  destruct (Z.even m); lia.
Qed.

Lemma binary_round_aux_nonneg m e l :
  (0 <= m)%Z -> sf_nonneg (binary_round_aux prec emax false m e l) = true.
Proof.
  intros H. unfold binary_round_aux.
  pose proof (shr_fexp_nonneg m e l H) as H1.
  destruct (shr_fexp prec emax m e l) as [mrs' e']. cbn [fst] in H1.
  pose proof (shr_fexp_nonneg _ e' loc_Exact
                (round_nearest_even_nonneg _ (loc_of_shr_record mrs') H1)) as H2.
  destruct (shr_fexp prec emax _ e' loc_Exact) as [mrs'' e'']. cbn [fst] in H2.
  destruct (shr_m mrs'') as [|p|p]; try lia; try reflexivity.
  destruct (e'' <=? emax - prec)%Z; reflexivity.
Qed.

Lemma binary_normalize_nonneg m e :
  (0 <= m)%Z -> sf_nonneg (binary_normalize prec emax m e false) = true.
Proof.
  intros H. destruct m as [|p|p]; try lia; try reflexivity.
  cbn. unfold binary_round.
  destruct (shl_align p e _) as [mz ez].
  apply binary_round_aux_nonneg. lia.
Qed.

(** *** Ordering of positive finite numbers through exact values *)

Lemma digits2_pos_bounds m :
  (2 ^ (Zpos (digits2_pos m) - 1) <= Zpos m < 2 ^ Zpos (digits2_pos m))%Z.
Proof.
  induction m as [p IH|p IH|]; cbn [digits2_pos]; [| |cbn; lia];
    rewrite Pos2Z.inj_succ;
    replace (Z.succ (Zpos (digits2_pos p)) - 1)%Z
      with (Z.succ (Zpos (digits2_pos p) - 1))%Z by lia;
    rewrite !Z.pow_succ_r by lia; lia.
Qed.

Lemma bounded_inv m e :
  bounded prec emax m e = true ->
  (emin <= e)%Z /\ (Zpos m < 2 ^ 53)%Z /\ (emin < e -> 2 ^ 52 <= Zpos m)%Z.
Proof.
  unfold bounded, canonical_mantissa, fexp. intros H.
  apply andb_true_iff in H as [H _]. apply Z.eqb_eq in H.
  pose proof (digits2_pos_bounds m) as [Hlo Hhi].
  change (SpecFloat.emin prec emax) with (-1074)%Z in *.
  change prec with 53%Z in *.
  set (d := Zpos (digits2_pos m)) in *.
  assert (Hd : (d <= 53)%Z) by lia.
  repeat split.
  - lia.
  - eapply Z.lt_le_trans; [exact Hhi|]. apply Z.pow_le_mono_r; lia.
  - intros He. assert (d = 53)%Z by lia. subst d.
    replace 52%Z with (Zpos (digits2_pos m) - 1)%Z by lia. exact Hlo.
Qed.

Lemma SFcompare_scaled mx ex my ey :
  bounded prec emax mx ex = true ->
  bounded prec emax my ey = true ->
  SFleb (S754_finite false my ey) (S754_finite false mx ex) = true ->
  (scaled my ey <= scaled mx ex)%Z.
Proof.
  intros Hx Hy. unfold SFleb, scaled; cbn.
  apply bounded_inv in Hx as (Hex & Hmx & Hnx).
  apply bounded_inv in Hy as (Hey & Hmy & Hny).
  change emin with (-1074)%Z in *.
  destruct (Z.compare_spec ey ex) as [He|He|He]; try discriminate.
  - subst ey. intros H.
    assert (Zpos my <= Zpos mx)%Z.
    { change (Pos.compare_cont Eq my mx) with (Pos.compare my mx) in H.
      destruct (Pos.compare_spec my mx); try discriminate; subst; lia. }
    apply Z.mul_le_mono_nonneg_r; [apply Z.pow_nonneg|]; lia.
  - intros _.
    replace (ex - -1074)%Z with ((ey - -1074) + (ex - ey))%Z by lia.
    rewrite Z.pow_add_r by lia.
    assert (0 < 2 ^ (ey - -1074))%Z by (apply Z.pow_pos_nonneg; lia).
    assert (2 ^ 1 <= 2 ^ (ex - ey))%Z by (apply Z.pow_le_mono_r; lia).
    specialize (Hnx ltac:(lia)).
    change (2 ^ 1)%Z with 2%Z in *. change (2 ^ 52)%Z with 4503599627370496%Z in *.
    change (2 ^ 53)%Z with 9007199254740992%Z in *.
    generalize dependent (2 ^ (ey - -1074))%Z. intros A HA.
    generalize dependent (2 ^ (ex - ey))%Z. intros B HB.
    apply Z.le_trans with (Zpos mx * 2 * A)%Z.
    + apply Z.mul_le_mono_nonneg_r; lia.
    + rewrite (Z.mul_comm A B), Z.mul_assoc.
      apply Z.mul_le_mono_nonneg_r; [lia|].
      apply Z.mul_le_mono_nonneg_l; lia.
Qed.

Lemma Pos_iter_xO m d : Zpos (Pos.iter xO m d) = (Zpos m * 2 ^ Zpos d)%Z.
Proof.
  induction d as [|d IH] using Pos.peano_ind.
  - cbn. lia.
  - rewrite Pos.iter_succ, Pos2Z.inj_succ, Z.pow_succ_r by lia.
    rewrite Pos2Z.inj_xO, IH. lia.
Qed.

Lemma shl_align_fst m e e' :
  (e' <= e)%Z -> Zpos (fst (shl_align m e e')) = (Zpos m * 2 ^ (e - e'))%Z.
Proof.
  intros H. unfold shl_align.
  destruct (e' - e)%Z as [|d|d] eqn:E; cbn [fst]; try lia.
  - replace (e - e')%Z with 0%Z by lia. cbn. lia.
  - rewrite Pos_iter_xO. f_equal. f_equal. lia.
Qed.

Lemma scaled_align m e ez :
  (emin <= ez)%Z -> (ez <= e)%Z ->
  scaled m e = (Zpos (fst (shl_align m e ez)) * 2 ^ (ez - emin))%Z.
Proof.
  intros H1 H2. unfold scaled. rewrite shl_align_fst by exact H2.
  rewrite <- Z.mul_assoc, <- Z.pow_add_r by lia. f_equal. f_equal. lia.
Qed.

(** *** Sums and differences that cannot be negative *)

Lemma SFadd_nonneg x y :
  sf_nonneg x = true -> sf_nonneg y = true ->
  sf_nonneg (SFadd prec emax x y) = true.
Proof.
  destruct x as [sx|sx| |sx mx ex], y as [sy|sy| |sy my ey];
    try destruct sx; try destruct sy; try discriminate; try reflexivity.
  intros _ _. cbn [SFadd cond_Zopp]. apply binary_normalize_nonneg. lia.
Qed.

Lemma SFsub_finite_nonneg mx ex my ey :
  (emin <= ex)%Z -> (emin <= ey)%Z ->
  (scaled my ey <= scaled mx ex)%Z ->
  sf_nonneg (SFsub prec emax (S754_finite false mx ex) (S754_finite false my ey)) = true.
Proof.
  intros Hex Hey Hs.
  cbn [SFsub cond_Zopp]. apply binary_normalize_nonneg.
  set (ez := Z.min ex ey) in *.
  rewrite (scaled_align mx ex ez), (scaled_align my ey ez) in Hs by lia.
  assert (0 < 2 ^ (ez - emin))%Z by (apply Z.pow_pos_nonneg; lia).
  nia.
Qed.

Lemma SFsub_nonneg x y :
  valid_binary x = true -> valid_binary y = true ->
  sf_nonneg y = true -> SFleb y x = true ->
  (forall s, y <> S754_infinity s) ->
  sf_nonneg (SFsub prec emax x y) = true.
Proof.
  intros Vx Vy Hy Hle Hfin.
  destruct x as [sx|sx| |sx mx ex], y as [sy|sy| |sy my ey];
    try destruct sx; try destruct sy; try discriminate; try reflexivity;
    try (exfalso; eapply Hfin; reflexivity).
  cbn in Vx, Vy.
  pose proof (SFcompare_scaled _ _ _ _ Vx Vy Hle) as Hs.
  apply bounded_inv in Vx as (Hex & _). apply bounded_inv in Vy as (Hey & _).
  now apply SFsub_finite_nonneg.
Qed.


(** *** The same facts on primitive floats *)

Lemma add_nonneg x y :
  (0 <=? x) = true -> (0 <=? y) = true -> (0 <=? x + y) = true.
Proof.
  rewrite !leb_zero_l, add_spec. apply SFadd_nonneg.
Qed.

Lemma is_infinity_false x :
  is_infinity x = false -> forall s, Prim2SF x <> S754_infinity s.
Proof.
  unfold is_infinity. rewrite FloatAxioms.eqb_spec, abs_spec.
  intros H s E. rewrite E in H. discriminate H.
Qed.

Lemma sub_nonneg x y :
  (0 <=? y) = true -> (y <=? x) = true -> is_infinity y = false ->
  (0 <=? x - y) = true.
Proof.
  rewrite !leb_zero_l, sub_spec, FloatAxioms.leb_spec. intros Hy Hle Hfin.
  apply SFsub_nonneg; auto using Prim2SF_valid, is_infinity_false.
Qed.


Lemma not_ltb_leb x y :
  is_nan x = false -> is_nan y = false -> (x <? y) = false -> (y <=? x) = true.
Proof.
  unfold is_nan.
  rewrite FloatAxioms.leb_spec, FloatAxioms.ltb_spec, !FloatAxioms.eqb_spec.
  unfold SFleb, SFltb, SFeqb.
  rewrite (SFcompare_antisym (Prim2SF x) (Prim2SF y)).
  intros Hx Hy.
  destruct (SFcompare (Prim2SF x) (Prim2SF y)) as [[]|] eqn:E; cbn; try congruence.
  exfalso.
  destruct (Prim2SF x) as [sx|sx| |sx mx ex], (Prim2SF y) as [sy|sy| |sy my ey];
    try discriminate E; try discriminate Hx; try discriminate Hy.
Qed.

Lemma nonneg_not_nan x : (0 <=? x) = true -> is_nan x = false.
Proof.
  rewrite leb_zero_l. unfold is_nan. rewrite FloatAxioms.eqb_spec.
  destruct (Prim2SF x) as [s|s| |s m e]; try discriminate; intros _.
  - reflexivity.
  - destruct s; reflexivity.
  - unfold SFeqb; cbn. rewrite Z.compare_refl.
    change (Pos.compare_cont Eq m m) with (Pos.compare m m).
    rewrite Pos.compare_refl. destruct s; reflexivity.
Qed.

End FloatFacts.

Import FloatFacts.

(** ** Rounding is below any representable upper bound *)

Module RoundFacts.

Lemma shr_1_eq m r s :
  0 <= m -> shr_1 (Build_shr_record m r s) = Build_shr_record (Z.div2 m) (Z.odd m) (r || s).
Proof.
  destruct m as [|[p|p|]|p]; try reflexivity; lia.
Qed.

Lemma shifted_shr_1 M k mrs :
  0 <= M -> 0 <= k -> shifted M k mrs -> shifted M (k + 1) (shr_1 mrs).
Proof.
  intros HM Hk [Hm Hrs]. destruct mrs as [m r s]. cbn [shr_m shr_r shr_s] in *.
  assert (Hp : 0 < 2 ^ k) by (apply Z.pow_pos_nonneg; lia).
  assert (H0 : 0 <= m) by (subst m; apply Z.div_pos; lia).
  rewrite (shr_1_eq m r s H0). unfold shifted. cbn [shr_m shr_r shr_s].
  rewrite Z.pow_add_r, Z.pow_1_r by lia. split.
  - rewrite Z.div2_div, Hm. apply Z.div_div; lia.
  - intros Hmod. rewrite Z.rem_mul_r in Hmod by lia.
    pose proof (Z.mod_pos_bound M (2 ^ k) Hp).
    pose proof (Z.mod_pos_bound (M / 2 ^ k) 2 ltac:(lia)).
    assert (HA : M mod 2 ^ k = 0) by nia.
    assert (HB : (M / 2 ^ k) mod 2 = 0) by nia.
    destruct (Hrs HA) as [-> ->]. split; [|reflexivity].
    rewrite <- Hm in HB. rewrite Zmod_odd in HB.
    destruct (Z.odd m); [discriminate|reflexivity].
Qed.

Lemma shifted_iter M p : forall k mrs,
  0 <= M -> 0 <= k -> shifted M k mrs ->
  shifted M (k + Zpos p) (SpecFloat.iter_pos shr_1 p mrs).
Proof.
  induction p as [p IH|p IH|]; intros k mrs HM Hk H; cbn [SpecFloat.iter_pos].
  - replace (k + Zpos p~1) with (((k + 1) + Zpos p) + Zpos p) by lia.
    apply IH; [lia..|]. apply IH; [lia..|]. now apply shifted_shr_1.
  - replace (k + Zpos p~0) with ((k + Zpos p) + Zpos p) by lia.
    apply IH; [lia..|]. now apply IH.
  - now apply shifted_shr_1.
Qed.

Lemma shifted_start M : shifted M 0 (shr_record_of_loc M loc_Exact).
Proof.
  split; cbn; [now rewrite Z.div_1_r|auto].
Qed.

(** [shr_fexp] on an exact number: the shift it makes, and what it leaves. *)
Lemma shr_fexp_exact M e :
  0 <= M ->
  let n := Z.max 0 (fexp prec emax (Zdigits2 M + e) - e) in
  shifted M n (fst (shr_fexp prec emax M e loc_Exact))
  /\ snd (shr_fexp prec emax M e loc_Exact) = e + n.
Proof.
  intros HM n. unfold shr_fexp, shr. subst n.
  destruct (fexp prec emax (Zdigits2 M + e) - e) as [|p|p]; cbn [fst snd].
  - split; [apply shifted_start|lia].
  - rewrite Z.max_r by lia. split; [|reflexivity].
    apply (shifted_iter M p 0); [lia..|apply shifted_start].
  - rewrite Z.max_l by lia. split; [apply shifted_start|lia].
Qed.

Lemma Zdigits2_bounds A :
  0 < A -> 2 ^ (Zdigits2 A - 1) <= A < 2 ^ Zdigits2 A.
Proof.
  destruct A as [|p|p]; try lia. intros _. apply digits2_pos_bounds.
Qed.

Lemma Zdigits2_nonneg A : 0 <= Zdigits2 A.
Proof. destruct A; cbn; lia. Qed.

Lemma digits_mono A B ea eb b :
  0 < A -> 0 < B -> b <= ea -> b <= eb ->
  A * 2 ^ (ea - b) <= B * 2 ^ (eb - b) ->
  Zdigits2 A + ea <= Zdigits2 B + eb.
Proof.
  intros HA HB Ha Hb H.
  pose proof (Zdigits2_bounds A HA) as [HA1 _].
  pose proof (Zdigits2_bounds B HB) as [_ HB2].
  assert (HdA : 1 <= Zdigits2 A) by (destruct A; cbn; lia).
  pose proof (Zdigits2_nonneg B) as HdB.
  assert (Hlt : 2 ^ (Zdigits2 A - 1 + (ea - b)) < 2 ^ (Zdigits2 B + (eb - b))).
  { rewrite !Z.pow_add_r by lia.
    assert (0 < 2 ^ (ea - b)) by (apply Z.pow_pos_nonneg; lia).
    assert (0 < 2 ^ (eb - b)) by (apply Z.pow_pos_nonneg; lia).
    eapply Z.le_lt_trans; [|apply Z.mul_lt_mono_pos_r; [lia|exact HB2]].
    eapply Z.le_trans; [|exact H].
    apply Z.mul_le_mono_nonneg_r; lia. }
  apply Z.pow_lt_mono_r_iff in Hlt; lia.
Qed.

Lemma fexp_mono x y : x <= y -> fexp prec emax x <= fexp prec emax y.
Proof. unfold fexp. lia. Qed.

Lemma fexp_emin x : emin <= fexp prec emax x.
Proof. unfold fexp. lia. Qed.

Lemma bounded_fexp m e :
  bounded prec emax m e = true ->
  fexp prec emax (Zpos (digits2_pos m) + e) = e /\ e <= emax - prec.
Proof.
  unfold bounded, canonical_mantissa. intros H.
  apply andb_true_iff in H as [H1 H2].
  apply Z.eqb_eq in H1. apply Z.leb_le in H2. auto.
Qed.

Lemma round_nearest_even_le m l :
  m <= round_nearest_even m l <= m + 1.
Proof.
  destruct l as [|[]]; cbn; try lia. destruct (Z.even m); lia.
Qed.

(** Rounding an exact positive number that is at most the representable
    number [ms * 2 ^ es] gives zero or a finite number at most that one. *)
Lemma binary_round_aux_le M e ms es :
  0 < M -> bounded prec emax ms es = true -> e <= es ->
  M <= Zpos ms * 2 ^ (es - e) ->
  match binary_round_aux prec emax false M e loc_Exact with
  | S754_zero _ => True
  | S754_finite false mr er => emin <= er /\ scaled mr er <= scaled ms es
  | _ => False
  end.
Proof.
  intros HM Hb He Hle.
  destruct (bounded_fexp _ _ Hb) as [Hcan Hemax].
  unfold binary_round_aux.
  (* the first shift *)
  pose proof (shr_fexp_exact M e ltac:(lia)) as [[Hm1 Hex1] He1]. cbv zeta in *.
  destruct (shr_fexp prec emax M e loc_Exact) as [mrs1 e1]. cbn [fst snd] in *.
  set (n := Z.max 0 (fexp prec emax (Zdigits2 M + e) - e)) in *.
  assert (Hn : 0 <= n) by lia.
  assert (Hd1 : Zdigits2 M + e <= Zpos (digits2_pos ms) + es).
  { apply (digits_mono M (Zpos ms) e es e); try lia.
    now rewrite Z.sub_diag, Z.mul_1_r. }
  pose proof (fexp_mono _ _ Hd1) as Hf1. rewrite Hcan in Hf1.
  pose proof (fexp_emin (Zdigits2 M + e)) as Hemin1.
  assert (He1s : e1 <= es) by lia.
  assert (He1m : emin <= e1) by lia.
  (* the bound, counted in units of [2 ^ e1] *)
  set (K := Zpos ms * 2 ^ (es - e1)).
  assert (Hp : 0 < 2 ^ n) by (apply Z.pow_pos_nonneg; lia).
  assert (HK : Zpos ms * 2 ^ (es - e) = K * 2 ^ n).
  { unfold K. rewrite <- Z.mul_assoc, <- Z.pow_add_r by lia. f_equal. f_equal. lia. }
  rewrite HK in Hle.
  assert (HK0 : 0 <= K) by (unfold K; apply Z.mul_nonneg_nonneg; [lia|apply Z.pow_nonneg; lia]).
  set (m1 := shr_m mrs1) in *.
  assert (Hm1K : m1 <= K).
  { rewrite Hm1. apply Z.div_le_upper_bound; [exact Hp|]. lia. }
  assert (Hm10 : 0 <= m1) by (rewrite Hm1; apply Z.div_pos; lia).
  set (m2 := round_nearest_even m1 (loc_of_shr_record mrs1)).
  assert (Hm2 : 0 <= m2 <= K).
  { pose proof (round_nearest_even_le m1 (loc_of_shr_record mrs1)) as Hr.
    fold m2 in Hr. split; [lia|].
    destruct (Z.eq_dec m1 K) as [Heq|Hne]; [|lia].
    assert (Hmod : M mod 2 ^ n = 0).
    { pose proof (Z.div_mod M (2 ^ n) ltac:(lia)) as Hdm.
      pose proof (Z.mod_pos_bound M (2 ^ n) Hp). rewrite <- Hm1, Heq in Hdm. lia. }
    destruct (Hex1 Hmod) as [Hr1 Hs1].
    assert (Hloc : loc_of_shr_record mrs1 = loc_Exact).
    { clear -Hr1 Hs1. destruct mrs1 as [a r s]. cbn in *. now subst r s. }
    unfold m2. rewrite Hloc. cbn. lia. }
  (* the second shift *)
  pose proof (shr_fexp_exact m2 e1 ltac:(lia)) as [[Hm3 _] He2]. cbv zeta in *.
  destruct (shr_fexp prec emax m2 e1 loc_Exact) as [mrs2 e2]. cbn [fst snd] in *.
  set (n2 := Z.max 0 (fexp prec emax (Zdigits2 m2 + e1) - e1)) in *.
  assert (Hn2 : 0 <= n2) by lia.
  assert (Hp2 : 0 < 2 ^ n2) by (apply Z.pow_pos_nonneg; lia).
  pose proof (fexp_emin (Zdigits2 m2 + e1)) as Hemin2.
  assert (Hf2 : fexp prec emax (Zdigits2 m2 + e1) <= es).
  { destruct (Z.eq_dec m2 0) as [->|Hnz].
    - cbn [Zdigits2]. rewrite <- Hcan. apply fexp_mono.
      pose proof (Zdigits2_nonneg (Zpos ms)). cbn [Zdigits2] in *. lia.
    - rewrite <- Hcan. apply fexp_mono.
      apply (digits_mono m2 (Zpos ms) e1 es e1); try lia.
      rewrite Z.sub_diag, Z.mul_1_r. fold K. lia. }
  assert (He2s : e2 <= es) by lia.
  assert (He2m : emin <= e2) by lia.
  assert (Hm3K : shr_m mrs2 * 2 ^ n2 <= K).
  { rewrite Hm3. pose proof (Z.mul_div_le m2 (2 ^ n2) Hp2). lia. }
  assert (Hm30 : 0 <= shr_m mrs2) by (rewrite Hm3; apply Z.div_pos; lia).
  destruct (shr_m mrs2) as [|mr|mr]; [exact I| |lia].
  destruct (Z.leb_spec e2 (emax - prec)) as [_|Hbad]; [|lia].
  split; [exact He2m|]. unfold scaled.
  replace (e2 - emin) with (n2 + (e1 - emin)) by lia.
  replace (es - emin) with ((es - e1) + (e1 - emin)) by lia.
  rewrite !Z.pow_add_r, !Z.mul_assoc by lia. fold K.
  apply Z.mul_le_mono_nonneg_r; [apply Z.pow_nonneg; lia|exact Hm3K].
Qed.




End RoundFacts.

Import RoundFacts.

(** ** Strings: normalising a coupon code *)













Lemma normalized_empty : normalized "" = "".
Proof. reflexivity. Qed.

(** ** Coupons *)

Lemma apply_coupon_some subtotal code :
  apply_coupon subtotal (Some code) =
  if bool_decide (normalized code = "SAVE10")
  then Py.max (subtotal - subtotal * 0.10)%float 0%float
  else if bool_decide (normalized code = "FLAT50")
       then if (200 <=? subtotal)%float
            then Py.max (subtotal - 50)%float 0%float
            else subtotal
       else subtotal.
Proof.
  destruct code; reflexivity.
Qed.

Lemma max_zero_not_negative a : not_negative (Py.max a 0%float).
Proof.
  unfold not_negative, Py.max.
  destruct (a <? 0)%float eqn:E; [reflexivity|exact E].
Qed.




(** C4, as stated, fails: without a code a negative subtotal comes back as
    it is. *)
Lemma apply_coupon_negative_result :
  apply_coupon (-5)%float None = (-5)%float
  /\ (apply_coupon (-5)%float None <? 0)%float = true
  /\ (apply_coupon (-5)%float (Some "BOGUS") <? 0)%float = true
  /\ (apply_coupon (-5)%float (Some "FLAT50") <? 0)%float = true.
Proof.
  repeat split; vm_compute; reflexivity.
Qed.

(** C4 (amended): for every subtotal that is not negative and every coupon
    code (none and unknown ones included), the value [apply_coupon] returns
    is not negative. *)
Theorem apply_coupon_not_negative (subtotal : float) (code : option string) :
  not_negative subtotal -> not_negative (apply_coupon subtotal code).
Proof.
  intros H. destruct code as [code|]; [|exact H].
  rewrite apply_coupon_some.
  repeat case_bool_decide; try exact H; try apply max_zero_not_negative.
  destruct (200 <=? subtotal)%float; [apply max_zero_not_negative|exact H].
Qed.

Lemma apply_coupon_not_negative_witness :
  not_negative 40%float /\ not_negative (apply_coupon 40%float (Some "FLAT50")).
Proof.
  split; [reflexivity|].
  apply (apply_coupon_not_negative 40%float (Some "FLAT50")). reflexivity.
Defined.


(** ** Bank account: what a call leaves behind *)

Lemma withdraw_cases amount self :
  Bank.withdraw amount self =
  if (amount <=? 0)%float
  then (Raise (ValueError "Withdraw must be positive"), self)
  else if (balance self <? amount)%float
       then (Raise (ValueError "Insufficient funds"), self)
       else (Ok tt, mkBankAccount (owner self) (balance self - amount)%float).
Proof.
  unfold Bank.withdraw, bind, get, raise, Bank.sub_balance.
  destruct (amount <=? 0)%float; [reflexivity|].
  now destruct (balance self <? amount)%float.
Qed.

Lemma withdraw_raise_unchanged amount self e :
  fst (Bank.withdraw amount self) = Raise e ->
  Bank.withdraw amount self = (Raise e, self).
Proof.
  rewrite withdraw_cases.
  destruct (amount <=? 0)%float; [cbn; congruence|].
  destruct (balance self <? amount)%float; cbn; congruence.
Qed.

(** ** Orders *)

Lemma for_each_on_inv {A} (f : A -> M Inventory unit) l inv payer :
  for_each (fun x => on_inv (f x)) l (inv, payer) =
  (fst (for_each f l inv), (snd (for_each f l inv), payer)).
Proof.
  revert inv. induction l as [|x l IH]; intros inv; [reflexivity|].
  cbn [for_each]. unfold bind. unfold on_inv at 1. cbn [fst snd].
  destruct (f x inv) as [[u|e] inv']; cbn [fst snd]; [apply IH|reflexivity].
Qed.

Lemma process_order_unfold now order inv payer :
  process_order now order (inv, payer) =
  match validate_items inv (Order.items order) with
  | Raise e => (Raise e, (inv, payer))
  | Ok _ =>
      match calculate_subtotal order inv with
      | Raise e => (Raise e, (inv, payer))
      | Ok subtotal =>
          let discounted := apply_coupon subtotal (Order.coupon_code order) in
          match Bank.withdraw (grand_total_of discounted) payer with
          | (Raise e, payer') => (Raise e, (inv, payer'))
          | (Ok _, payer') =>
              match for_each
                      (fun it => Inv.remove_stock (OrderItem.sku it) (OrderItem.qty it))
                      (Order.items order) inv with
              | (Raise e, inv') => (Raise e, (inv', payer'))
              | (Ok _, inv') =>
                  (Ok (Receipt.mk
                         (Order.order_id order)
                         (List.map (fun it => (OrderItem.sku it, OrderItem.qty it))
                            (Order.items order))
                         subtotal discounted (compute_tax discounted)
                         (grand_total_of discounted) now
                         (coupon_or_empty (Order.coupon_code order))),
                   (inv', payer'))
              end
          end
      end
  end.
Proof.
  unfold process_order, bind at 1 2, get, lift. cbn [fst snd].
  destruct (validate_items inv (Order.items order)) as [[]|e]; [|reflexivity].
  unfold bind at 1. 
  destruct (calculate_subtotal order inv) as [subtotal|e]; [|reflexivity].
  cbv zeta. unfold bind at 1, on_payer at 1. cbn [fst snd].
  fold (grand_total_of (apply_coupon subtotal (Order.coupon_code order))).
  destruct (Bank.withdraw _ payer) as [[[]|e] payer']; [|reflexivity].
  unfold bind at 1. rewrite for_each_on_inv.
  destruct (for_each _ (Order.items order) inv) as [[[]|e] inv']; reflexivity.
Qed.

Lemma validate_items_raises inv items e :
  validate_items inv items = Raise e ->
  is_KeyError (@Raise unit e) || is_ValueError (@Raise unit e) = true.
Proof.
  induction items as [|it items IH]; cbn; [discriminate|].
  destruct (negb (Inv.has_sku inv (OrderItem.sku it))); [now intros [= <-]|].
  destruct (Inv.get_stock inv (OrderItem.sku it) <? OrderItem.qty it);
    [now intros [= <-]|exact IH].
Qed.

Lemma validate_items_unknown inv items :
  (exists it, In it items /\ unknown_item inv it) ->
  exists e, validate_items inv items = Raise e.
Proof.
  intros (it & Hin & Hu). induction items as [|x items IH]; [destruct Hin|].
  cbn. destruct (negb (Inv.has_sku inv (OrderItem.sku x))) eqn:Ex; [eauto|].
  destruct (Inv.get_stock inv (OrderItem.sku x) <? OrderItem.qty x); [eauto|].
  destruct Hin as [->|Hin]; [|auto].
  unfold unknown_item in Hu. rewrite Hu in Ex. discriminate.
Qed.

Lemma validate_items_first_unknown inv pre it post :
  unknown_item inv it ->
  (forall x, In x pre -> ~ unknown_item inv x -> ~ short_item inv x) ->
  is_KeyError (validate_items inv (pre ++ it :: post)) = true.
Proof.
  intros Hu. unfold unknown_item in Hu.
  induction pre as [|x pre IH]; intros Hpre; cbn.
  - now rewrite Hu.
  - destruct (Inv.has_sku inv (OrderItem.sku x)) eqn:Ex; cbn; [|reflexivity].
    destruct (Z.ltb_spec (Inv.get_stock inv (OrderItem.sku x)) (OrderItem.qty x)) as [Hs|_].
    + exfalso. apply (Hpre x); [now left| |exact Hs].
      unfold unknown_item. congruence.
    + apply IH. intros y Hy. apply Hpre. now right.
Qed.

Lemma validate_items_short inv items :
  (forall it, In it items -> ~ unknown_item inv it) ->
  (exists it, In it items /\ short_item inv it) ->
  is_ValueError (validate_items inv items) = true.
Proof.
  intros Hk (it & Hin & Hs). induction items as [|x items IH]; [destruct Hin|].
  cbn. destruct (Inv.has_sku inv (OrderItem.sku x)) eqn:Ex; cbn.
  - destruct (Z.ltb_spec (Inv.get_stock inv (OrderItem.sku x)) (OrderItem.qty x)) as [_|Hx];
      [reflexivity|].
    destruct Hin as [->|Hin]; [unfold short_item in Hs; lia|].
    apply IH; [|exact Hin]. intros y Hy. apply Hk. now right.
  - exfalso. apply (Hk x); [now left|exact Ex].
Qed.

Lemma process_order_validate_raise now order inv payer e :
  validate_items inv (Order.items order) = Raise e ->
  process_order now order (inv, payer) = (Raise e, (inv, payer)).
Proof.
  intros H. now rewrite process_order_unfold, H.
Qed.

(** C1: the demo order, on the demo inventory and for a payer who can afford
    it, succeeds; the receipt shows subtotal 120.0, discounted total 108.0,
    tax 19.44 and grand total 127.44, the payer is charged the grand total
    and the stock goes down to 8 and 4. *)
Theorem demo_order_receipt (now holder : string) (funds : float) :
  (127.44 <=? funds)%float = true ->
  exists receipt inv',
    process_order now demo_order (demo_inventory, Bank.new holder funds)
    = (Ok receipt, (inv', Bank.new holder (funds - 127.44)%float))
    /\ Receipt.subtotal receipt = 120.0%float
    /\ Receipt.discounted receipt = 108.0%float
    /\ Receipt.tax receipt = 19.44%float
    /\ Receipt.grand_total receipt = 127.44%float
    /\ Inv.get_stock inv' "SKU1" = 8
    /\ Inv.get_stock inv' "SKU2" = 4.
Proof.
  intros Hfunds. rewrite process_order_unfold.
  assert (Hv : validate_items demo_inventory (Order.items demo_order) = Ok tt)
    by (vm_compute; reflexivity).
  assert (Hs : calculate_subtotal demo_order demo_inventory = Ok 120.0%float)
    by (vm_compute; reflexivity).
  assert (Hd : apply_coupon 120.0%float (Order.coupon_code demo_order) = 108.0%float)
    by (vm_compute; reflexivity).
  assert (Ht : compute_tax 108.0%float = 19.44%float) by (vm_compute; reflexivity).
  assert (Hg : grand_total_of 108.0%float = 127.44%float) by (vm_compute; reflexivity).
  rewrite Hv, Hs. cbv zeta. rewrite Hd, Ht, Hg, withdraw_cases.
  change (127.44 <=? 0)%float with false. cbn [Bank.new balance owner].
  rewrite (leb_not_ltb _ _ Hfunds).
  destruct (for_each _ (Order.items demo_order) demo_inventory) as [r inv'] eqn:Hr.
  assert (Hr' : r = Ok tt /\ Inv.get_stock inv' "SKU1" = 8 /\ Inv.get_stock inv' "SKU2" = 4).
  { apply (f_equal fst) in Hr as H1. apply (f_equal snd) in Hr as H2.
    cbn [fst snd] in H1, H2. subst r inv'. repeat split; vm_compute; reflexivity. }
  destruct Hr' as (-> & H1 & H2).
  eexists _, inv'. split; [reflexivity|]. cbn.
  repeat split; assumption || reflexivity.
Qed.

Lemma demo_order_receipt_witness :
  (127.44 <=? 500)%float = true
  /\ exists receipt inv',
       process_order "2026-01-01T00:00:00" demo_order
         (demo_inventory, Bank.new "Shaik" 500%float)
       = (Ok receipt, (inv', Bank.new "Shaik" (500 - 127.44)%float))
       /\ Receipt.subtotal receipt = 120.0%float
       /\ Receipt.discounted receipt = 108.0%float
       /\ Receipt.tax receipt = 19.44%float
       /\ Receipt.grand_total receipt = 127.44%float
       /\ Inv.get_stock inv' "SKU1" = 8
       /\ Inv.get_stock inv' "SKU2" = 4.
Proof.
  split; [reflexivity|].
  apply (demo_order_receipt "2026-01-01T00:00:00" "Shaik" 500%float). reflexivity.
Defined.

(** C2: [process_order] is not atomic. Ordering the same product twice, six
    and six out of ten in stock, passes the checks and the charge; the second
    decrement then raises, and the error reaches the caller with the payer
    already charged and the first six already taken from the stock. *)
Theorem process_order_partial_mutation :
  exists now order inv payer e inv' payer',
    process_order now order (inv, payer) = (Raise e, (inv', payer'))
    /\ validate_items inv (Order.items order) = Ok tt
    /\ is_Ok (calculate_subtotal order inv) = true
    /\ e = ValueError "insufficient stock"
    /\ (balance payer' <? balance payer)%float = true
    /\ Inv.get_stock inv "SKU1" = 10
    /\ Inv.get_stock inv' "SKU1" = 4.
Proof.
  exists "2026-01-01T00:00:00", twice_order, demo_inventory, (Bank.new "Shaik" 500%float).
  destruct (process_order "2026-01-01T00:00:00" twice_order
              (demo_inventory, Bank.new "Shaik" 500%float)) as [r [inv' payer']] eqn:E.
  assert (Hr : r = Raise (ValueError "insufficient stock")).
  { apply (f_equal fst) in E. cbn [fst] in E. rewrite <- E. vm_compute. reflexivity. }
  assert (Hb : (balance payer' <? 500)%float = true).
  { apply (f_equal (fun x => balance (snd (snd x)))) in E. cbn [fst snd] in E.
    rewrite <- E. vm_compute. reflexivity. }
  assert (Hi : Inv.get_stock inv' "SKU1" = 4).
  { apply (f_equal (fun x => Inv.get_stock (fst (snd x)) "SKU1")) in E. cbn [fst snd] in E.
    rewrite <- E. vm_compute. reflexivity. }
  exists (ValueError "insufficient stock"), inv', payer'. subst r.
  repeat split; try assumption; vm_compute; reflexivity.
Qed.

(** C9: when [process_order] raises while checking the items, while
    computing the subtotal, or in the withdrawal (insufficient funds
    included), the caller gets that exception with the inventory and the
    payer exactly as they were. Pricing itself never raises. *)
Theorem process_order_raise_before_charge now order inv payer e :
  validate_items inv (Order.items order) = Raise e
  \/ (validate_items inv (Order.items order) = Ok tt
      /\ calculate_subtotal order inv = Raise e)
  \/ (validate_items inv (Order.items order) = Ok tt
      /\ exists subtotal,
           calculate_subtotal order inv = Ok subtotal
           /\ fst (Bank.withdraw
                     (grand_total_of (apply_coupon subtotal (Order.coupon_code order)))
                     payer) = Raise e) ->
  process_order now order (inv, payer) = (Raise e, (inv, payer)).
Proof.
  rewrite process_order_unfold.
  intros [H|[[Hv H]|[Hv (subtotal & Hs & H)]]].
  - now rewrite H.
  - now rewrite Hv, H.
  - rewrite Hv, Hs. cbv zeta. now rewrite (withdraw_raise_unchanged _ _ _ H).
Qed.

Lemma process_order_raise_before_charge_witness :
  process_order "2026-01-01T00:00:00" demo_order (demo_inventory, Bank.new "Shaik" 100%float)
  = (Raise (ValueError "Insufficient funds"), (demo_inventory, Bank.new "Shaik" 100%float))
  /\ process_order "2026-01-01T00:00:00" unknown_order (demo_inventory, Bank.new "Shaik" 100%float)
     = (Raise (KeyError "unknown sku: NOPE"), (demo_inventory, Bank.new "Shaik" 100%float)).
Proof.
  split.
  - apply process_order_raise_before_charge. right. right.
    split; [vm_compute; reflexivity|].
    exists 120%float. split; vm_compute; reflexivity.
  - apply process_order_raise_before_charge. left. vm_compute. reflexivity.
Defined.

(** C7, as stated, fails: an order with an unknown identifier fails with a
    value error, not a lookup error, when an earlier item is out of stock. *)
Lemma process_order_unknown_after_short :
  (exists it, In it (Order.items short_then_unknown_order)
              /\ unknown_item demo_inventory it)
  /\ fst (process_order "2026-01-01T00:00:00" short_then_unknown_order
            (demo_inventory, Bank.new "Shaik" 500%float))
     = Raise (ValueError "out of stock: SKU1")
  /\ is_KeyError (fst (process_order "2026-01-01T00:00:00" short_then_unknown_order
                         (demo_inventory, Bank.new "Shaik" 500%float))) = false.
Proof.
  split; [|split; vm_compute; reflexivity].
  exists (OrderItem.mk "NOPE" 1). split; [right; left; reflexivity|].
  vm_compute. reflexivity.
Qed.

(** C7 (amended): an order with an item whose identifier the catalog lacks
    always fails, with a lookup error or a value error; the error is a lookup
    error when no item before it has a known identifier and a quantity above
    its stock. An order whose identifiers are all known and one of whose
    items asks for more than its stock fails with a value error. *)
Theorem process_order_rejects now order inv payer :
  let r := fst (process_order now order (inv, payer)) in
  ((exists it, In it (Order.items order) /\ unknown_item inv it) ->
     is_KeyError r || is_ValueError r = true)
  /\ (forall pre it post,
        Order.items order = (pre ++ it :: post)%list ->
        unknown_item inv it ->
        (forall x, In x pre -> ~ unknown_item inv x -> ~ short_item inv x) ->
        is_KeyError r = true)
  /\ ((forall it, In it (Order.items order) -> ~ unknown_item inv it) ->
      (exists it, In it (Order.items order) /\ short_item inv it) ->
      is_ValueError r = true).
Proof.
  cbv zeta. split; [|split].
  - intros H. destruct (validate_items_unknown inv _ H) as [e He].
    rewrite (process_order_validate_raise _ _ _ _ _ He). cbn [fst].
    exact (validate_items_raises _ _ _ He).
  - intros pre it post Hitems Hu Hpre.
    pose proof (validate_items_first_unknown inv pre it post Hu Hpre) as H.
    rewrite <- Hitems in H.
    destruct (validate_items inv (Order.items order)) as [[]|e] eqn:He; [discriminate|].
    now rewrite (process_order_validate_raise _ _ _ _ _ He).
  - intros Hk Hs.
    pose proof (validate_items_short inv _ Hk Hs) as H.
    destruct (validate_items inv (Order.items order)) as [[]|e] eqn:He; [discriminate|].
    now rewrite (process_order_validate_raise _ _ _ _ _ He).
Qed.

Lemma process_order_rejects_witness :
  is_KeyError (fst (process_order "2026-01-01T00:00:00" unknown_order
                      (demo_inventory, Bank.new "Shaik" 500%float))) = true
  /\ is_ValueError (fst (process_order "2026-01-01T00:00:00" short_order
                           (demo_inventory, Bank.new "Shaik" 500%float))) = true.
Proof.
  split.
  - apply (process_order_rejects "2026-01-01T00:00:00" unknown_order demo_inventory
             (Bank.new "Shaik" 500%float))
      with (pre := [OrderItem.mk "SKU1" 1]) (it := OrderItem.mk "NOPE" 1) (post := []).
    + reflexivity.
    + reflexivity.
    + intros x [<-|[]] _. unfold short_item. vm_compute. discriminate.
  - apply (process_order_rejects "2026-01-01T00:00:00" short_order demo_inventory
             (Bank.new "Shaik" 500%float)).
    + intros it [<-|[<-|[]]]; unfold unknown_item; vm_compute; discriminate.
    + exists (OrderItem.mk "SKU2" 20). split; [right; left; reflexivity|].
      unfold short_item. vm_compute. reflexivity.
Defined.

(** ** Inventory invariants *)

Lemma get_stock_nonneg inv sku : stock_nonneg inv -> 0 <= Inv.get_stock inv sku.
Proof.
  intros H. unfold Inv.get_stock.
  destruct (_stock inv !! sku) as [n|] eqn:E; cbn; [exact (H _ _ E)|lia].
Qed.

Lemma set_stock_ok inv sku n :
  stock_nonneg inv -> stock_in_catalog inv ->
  0 <= n -> is_Some (_catalog inv !! sku) ->
  stock_nonneg (snd (Inv.set_stock sku n inv))
  /\ stock_in_catalog (snd (Inv.set_stock sku n inv)).
Proof.
  intros Hn Hc Hpos Hsku.
  unfold stock_nonneg, stock_in_catalog, Inv.set_stock. cbn [snd _stock _catalog].
  split.
  - intros k m. destruct (decide (sku = k)) as [->|Hne].
    + rewrite lookup_insert_eq. intros [= <-]. exact Hpos.
    + rewrite lookup_insert_ne by exact Hne. apply Hn.
  - intros k. destruct (decide (sku = k)) as [->|Hne]; [intros _; exact Hsku|].
    rewrite lookup_insert_ne by exact Hne. apply Hc.
Qed.

Lemma add_product_ok inv p :
  stock_nonneg inv -> stock_in_catalog inv ->
  stock_nonneg (snd (Inv.add_product p inv))
  /\ stock_in_catalog (snd (Inv.add_product p inv)).
Proof.
  intros Hn Hc. unfold Inv.add_product. cbn [_stock _catalog].
  set (inv1 := mkInventory (_stock inv) (<[Product.sku p := p]> (_catalog inv))).
  assert (Hn1 : stock_nonneg inv1) by exact Hn.
  assert (Hc1 : stock_in_catalog inv1).
  { intros k Hk. unfold inv1. cbn [_stock _catalog] in *. destruct (decide (Product.sku p = k)) as [->|Hne].
    - rewrite lookup_insert_eq. eauto.
    - rewrite lookup_insert_ne by exact Hne. now apply Hc. }
  destruct (_stock inv !! Product.sku p) eqn:E; [now split|].
  apply set_stock_ok; try assumption; [lia|].
  unfold inv1. cbn [_catalog]. rewrite lookup_insert_eq. eauto.
Qed.

Lemma add_stock_ok inv sku qty :
  stock_nonneg inv -> stock_in_catalog inv ->
  stock_nonneg (snd (Inv.add_stock sku qty inv))
  /\ stock_in_catalog (snd (Inv.add_stock sku qty inv)).
Proof.
  intros Hn Hc. unfold Inv.add_stock.
  destruct (Z.leb_spec qty 0) as [_|Hq]; [now split|].
  unfold bind, get.
  case_bool_decide as Hsku; cbn [negb]; [|now split].
  apply set_stock_ok; try assumption.
  pose proof (get_stock_nonneg inv sku Hn). lia.
Qed.

Lemma remove_stock_ok inv sku qty :
  stock_nonneg inv -> stock_in_catalog inv ->
  stock_nonneg (snd (Inv.remove_stock sku qty inv))
  /\ stock_in_catalog (snd (Inv.remove_stock sku qty inv)).
Proof.
  intros Hn Hc. unfold Inv.remove_stock.
  destruct (Z.leb_spec qty 0) as [_|Hq]; [now split|].
  unfold bind, get.
  destruct (Z.ltb_spec (Inv.get_stock inv sku) qty) as [_|Hs]; [now split|].
  apply set_stock_ok; try assumption; [lia|].
  apply Hc. unfold Inv.get_stock in Hs.
  destruct (_stock inv !! sku); [eauto|cbn in Hs; lia].
Qed.

Lemma run_op_ok op inv :
  stock_nonneg inv /\ stock_in_catalog inv ->
  stock_nonneg (run_op op inv) /\ stock_in_catalog (run_op op inv).
Proof.
  intros [Hn Hc].
  destruct op; cbn [run_op];
    auto using add_product_ok, add_stock_ok, remove_stock_ok.
Qed.

Lemma run_ops_ok ops : forall inv,
  stock_nonneg inv /\ stock_in_catalog inv ->
  stock_nonneg (run_ops ops inv) /\ stock_in_catalog (run_ops ops inv).
Proof.
  induction ops as [|op ops IH]; intros inv H; [exact H|].
  apply IH, run_op_ok, H.
Qed.

(** C5: whatever operations are issued on a fresh [Inventory], in whatever
    order and whether they return or raise, every stored stock count is
    non-negative and every identifier with a stock entry has a catalog
    entry. *)
Theorem inventory_invariant (ops : list inv_op) :
  stock_nonneg (run_ops ops Inv.new) /\ stock_in_catalog (run_ops ops Inv.new).
Proof.
  apply run_ops_ok. split.
  - intros sku n H. unfold Inv.new in H. cbn [_stock] in H.
    now rewrite lookup_empty in H.
  - intros sku [n H]. unfold Inv.new in H. cbn [_stock] in H.
    now rewrite lookup_empty in H.
Qed.

(** ** Converting an integer keeps the sign *)

Lemma binary_round_nonneg m e :
  sf_nonneg (binary_round prec emax false m e) = true.
Proof.
  unfold binary_round. destruct (shl_align m e _) as [mz ez].
  apply binary_round_aux_nonneg. lia.
Qed.

Lemma SFldexp_nonneg x e :
  sf_nonneg x = true -> sf_nonneg (SFldexp prec emax x e) = true.
Proof.
  destruct x as [s|s| |s m ex]; try exact id.
  destruct s; [discriminate|]. intros _. apply binary_round_nonneg.
Qed.

Lemma SF2Prim_nonneg x :
  sf_nonneg x = true -> (0 <=? SF2Prim x)%float = true.
Proof.
  destruct x as [s|s| |s m e]; try destruct s; try discriminate; try reflexivity.
  intros _. rewrite leb_zero_l. cbn [SF2Prim].
  rewrite Z_ldexp_spec, of_uint63_spec.
  apply SFldexp_nonneg, binary_normalize_nonneg, Uint63.to_Z_bounded.
Qed.

Lemma float_of_int_nonneg n x :
  0 <= n -> float_of_int n = Ok x -> (0 <=? x)%float = true.
Proof.
  intros Hn. unfold float_of_int.
  pose proof (binary_normalize_nonneg n 0 Hn) as H.
  destruct (binary_normalize prec emax n 0 false) as [s|s| |s m e] eqn:E;
    try discriminate; intros Hx;
    (replace x with (SF2Prim (binary_normalize prec emax n 0 false))
      by (rewrite E; congruence));
    rewrite E; apply SF2Prim_nonneg, H.
Qed.

(** ** Bank account *)

Lemma is_finite_inv x :
  is_finite x = true -> is_nan x = false /\ is_infinity x = false.
Proof.
  unfold is_finite. destruct (is_nan x), (is_infinity x); cbn; auto; discriminate.
Qed.

Lemma positive_at_least_zero x :
  (x <=? 0)%float = false -> is_nan x = false -> at_least_zero x.
Proof.
  intros H Hn. unfold at_least_zero. rewrite leb_zero_l.
  pose proof (leb_zero_r x H Hn) as Hp.
  destruct (Prim2SF x) as [s|s| |s m e]; try discriminate Hp; exact Hp.
Qed.

Lemma deposit_float_cases x self :
  Bank.deposit (PyFloat x) self =
  if (x <=? 0)%float
  then (Raise (ValueError "Deposit must be positive"), self)
  else (Ok tt, mkBankAccount (owner self) (balance self + x)%float).
Proof.
  unfold Bank.deposit. now destruct (x <=? 0)%float.
Qed.

Lemma deposit_int_cases n self :
  Bank.deposit (PyInt n) self =
  if n <=? 0
  then (Raise (ValueError "Deposit must be positive"), self)
  else match float_of_int n with
       | Ok x => (Ok tt, mkBankAccount (owner self) (balance self + x)%float)
       | Raise e => (Raise e, self)
       end.
Proof.
  unfold Bank.deposit. destruct (n <=? 0); [reflexivity|].
  unfold bind, lift. now destruct (float_of_int n).
Qed.

(** C6, as stated, fails: a NaN amount passes both guards of [deposit] and of
    [withdraw], and the balance it leaves is not [>= 0]; so does withdrawing
    an infinite amount from an infinite balance. *)
Lemma deposit_nan_balance :
  at_least_zero (balance (Bank.new "Tester" 0%float))
  /\ Bank.deposit (PyFloat nan) (Bank.new "Tester" 0%float)
     = (Ok tt, Bank.new "Tester" nan)
  /\ (0 <=? nan)%float = false
  /\ Bank.withdraw nan (Bank.new "Tester" 50%float) = (Ok tt, Bank.new "Tester" nan)
  /\ Bank.withdraw infinity (Bank.new "Tester" infinity) = (Ok tt, Bank.new "Tester" nan).
Proof.
  repeat split; vm_compute; reflexivity.
Qed.

(** C6 (amended): on an account whose balance is [>= 0], [deposit] raises a
    type error on a non-numeric amount and a value error on an amount
    [<= 0]; an integer too large for a float raises an overflow error; any
    other amount that is not NaN is added to the balance. [withdraw] raises a
    value error on an amount [<= 0] or above the balance, and otherwise
    subtracts a finite amount from the balance. A call that raises leaves the
    account as it was, and in each of these cases the balance left is
    [>= 0]. *)
Theorem bank_account_balance (self : BankAccount) :
  at_least_zero (balance self) ->
  (forall s, Bank.deposit (PyStr s) self
             = (Raise (TypeError "amount must be numeric"), self))
  /\ Bank.deposit PyNone self = (Raise (TypeError "amount must be numeric"), self)
  /\ (forall n, n <= 0 ->
        Bank.deposit (PyInt n) self
        = (Raise (ValueError "Deposit must be positive"), self))
  /\ (forall x, (x <=? 0)%float = true ->
        Bank.deposit (PyFloat x) self
        = (Raise (ValueError "Deposit must be positive"), self))
  /\ (forall n, 0 < n -> is_Ok (float_of_int n) = false ->
        Bank.deposit (PyInt n) self
        = (Raise (OverflowError "int too large to convert to float"), self))
  /\ (forall n x, 0 < n -> float_of_int n = Ok x ->
        Bank.deposit (PyInt n) self
        = (Ok tt, mkBankAccount (owner self) (balance self + x)%float)
        /\ at_least_zero (balance self + x)%float)
  /\ (forall x, (x <=? 0)%float = false -> is_nan x = false ->
        Bank.deposit (PyFloat x) self
        = (Ok tt, mkBankAccount (owner self) (balance self + x)%float)
        /\ at_least_zero (balance self + x)%float)
  /\ (forall x, (x <=? 0)%float = true ->
        Bank.withdraw x self
        = (Raise (ValueError "Withdraw must be positive"), self))
  /\ (forall x, (x <=? 0)%float = false -> (balance self <? x)%float = true ->
        Bank.withdraw x self = (Raise (ValueError "Insufficient funds"), self))
  /\ (forall x, (x <=? 0)%float = false -> (balance self <? x)%float = false ->
        is_finite x = true ->
        Bank.withdraw x self
        = (Ok tt, mkBankAccount (owner self) (balance self - x)%float)
        /\ at_least_zero (balance self - x)%float).
Proof.
  intros Hb. unfold at_least_zero in *.
  split; [reflexivity|]. split; [reflexivity|].
  split. { intros n Hn. rewrite deposit_int_cases.
           now destruct (Z.leb_spec n 0); [|lia]. }
  split. { intros x Hx. now rewrite deposit_float_cases, Hx. }
  split. { intros n Hn Hov. rewrite deposit_int_cases.
           destruct (Z.leb_spec n 0); [lia|]. unfold float_of_int in *.
           now destruct (binary_normalize prec emax n 0 false). }
  split. { intros n x Hn Hx. rewrite deposit_int_cases, Hx.
           destruct (Z.leb_spec n 0); [lia|]. split; [reflexivity|].
           apply add_nonneg; [exact Hb|]. apply (float_of_int_nonneg n); [lia|exact Hx]. }
  split. { intros x Hx Hnan. rewrite deposit_float_cases, Hx. split; [reflexivity|].
           apply add_nonneg; [exact Hb|]. now apply positive_at_least_zero. }
  split. { intros x Hx. now rewrite withdraw_cases, Hx. }
  split. { intros x Hx Hlt. now rewrite withdraw_cases, Hx, Hlt. }
  intros x Hx Hlt Hfin. rewrite withdraw_cases, Hx, Hlt. split; [reflexivity|].
  apply is_finite_inv in Hfin as [Hnan Hinf].
  apply sub_nonneg.
  - now apply positive_at_least_zero.
  - apply not_ltb_leb; [now apply nonneg_not_nan|exact Hnan|exact Hlt].
  - exact Hinf.
Qed.

Lemma bank_account_balance_witness :
  at_least_zero (balance (Bank.new "Tester" 50%float))
  /\ Bank.deposit (PyStr "10") (Bank.new "Tester" 50%float)
     = (Raise (TypeError "amount must be numeric"), Bank.new "Tester" 50%float)
  /\ Bank.deposit (PyInt (-5)) (Bank.new "Tester" 50%float)
     = (Raise (ValueError "Deposit must be positive"), Bank.new "Tester" 50%float)
  /\ (Bank.deposit (PyInt 25) (Bank.new "Tester" 50%float)
      = (Ok tt, Bank.new "Tester" 75%float)
      /\ at_least_zero 75%float)
  /\ Bank.withdraw 1000%float (Bank.new "Tester" 50%float)
     = (Raise (ValueError "Insufficient funds"), Bank.new "Tester" 50%float)
  /\ (Bank.withdraw 20.5%float (Bank.new "Tester" 50%float)
      = (Ok tt, Bank.new "Tester" 29.5%float)
      /\ at_least_zero 29.5%float).
Proof.
  assert (H0 : at_least_zero (balance (Bank.new "Tester" 50%float))) by reflexivity.
  pose proof (bank_account_balance (Bank.new "Tester" 50%float) H0)
    as (Hstr & _ & Hneg & _ & _ & Hint & _ & _ & Hins & Hok).
  split; [exact H0|].
  split; [exact (Hstr "10")|].
  split; [apply Hneg; lia|].
  split; [apply (Hint 25 25%float); [lia|reflexivity]|].
  split; [apply Hins; reflexivity|].
  apply Hok; reflexivity.
Defined.

(** ** CSV parsing *)

Section CSVFacts.

Variable float_of_str : string -> option float.





End CSVFacts.



(** ** Inventory: what each operation does *)

Lemma get_stock_set_stock inv sku n k :
  Inv.get_stock (snd (Inv.set_stock sku n inv)) k
  = if decide (sku = k) then n else Inv.get_stock inv k.
Proof.
  unfold Inv.get_stock, Inv.set_stock. cbn [snd _stock].
  destruct (decide (sku = k)) as [->|Hne].
  - now rewrite lookup_insert_eq.
  - now rewrite lookup_insert_ne.
Qed.

Lemma has_sku_true inv sku :
  Inv.has_sku inv sku = true <-> is_Some (_catalog inv !! sku).
Proof.
  unfold Inv.has_sku. apply bool_decide_eq_true.
Qed.

Lemma add_stock_effect inv sku qty :
  0 < qty -> Inv.has_sku inv sku = true ->
  exists inv',
    Inv.add_stock sku qty inv = (Ok tt, inv')
    /\ Inv.get_stock inv' sku = Inv.get_stock inv sku + qty
    /\ (forall k, k <> sku -> Inv.get_stock inv' k = Inv.get_stock inv k)
    /\ _catalog inv' = _catalog inv.
Proof.
  intros Hq Hs. apply has_sku_true in Hs.
  exists (snd (Inv.set_stock sku (Inv.get_stock inv sku + qty) inv)).
  unfold Inv.add_stock. destruct (Z.leb_spec qty 0); [lia|].
  unfold bind, get. rewrite bool_decide_eq_true_2 by exact Hs. cbn [negb].
  split; [reflexivity|]. split; [|split; [|reflexivity]].
  - rewrite get_stock_set_stock. now rewrite decide_True.
  - intros k Hk. rewrite get_stock_set_stock. now rewrite decide_False.
Qed.

(** X1: [add_stock] of a positive quantity to a known identifier succeeds,
    raises the stock of that identifier by exactly the quantity (it adds, it
    does not overwrite) and touches neither another identifier's stock nor
    the catalog. *)
Theorem add_stock_adds inv sku qty :
  0 < qty -> Inv.has_sku inv sku = true ->
  exists inv',
    Inv.add_stock sku qty inv = (Ok tt, inv')
    /\ Inv.get_stock inv' sku = Inv.get_stock inv sku + qty
    /\ (forall k, k <> sku -> Inv.get_stock inv' k = Inv.get_stock inv k)
    /\ _catalog inv' = _catalog inv.
Proof.
  apply add_stock_effect.
Qed.

Lemma add_stock_adds_witness :
  0 < 3 /\ Inv.has_sku demo_inventory "SKU1" = true
  /\ exists inv',
       Inv.add_stock "SKU1" 3 demo_inventory = (Ok tt, inv')
       /\ Inv.get_stock inv' "SKU1" = Inv.get_stock demo_inventory "SKU1" + 3
       /\ (forall k, k <> "SKU1" -> Inv.get_stock inv' k = Inv.get_stock demo_inventory k)
       /\ _catalog inv' = _catalog demo_inventory.
Proof.
  split; [lia|]. split; [reflexivity|].
  apply (add_stock_adds demo_inventory "SKU1" 3); [lia|reflexivity].
Defined.

Lemma remove_stock_effect inv sku qty :
  0 < qty -> qty <= Inv.get_stock inv sku ->
  exists inv',
    Inv.remove_stock sku qty inv = (Ok tt, inv')
    /\ Inv.get_stock inv' sku = Inv.get_stock inv sku - qty
    /\ (forall k, k <> sku -> Inv.get_stock inv' k = Inv.get_stock inv k)
    /\ _catalog inv' = _catalog inv.
Proof.
  intros Hq Hs.
  exists (snd (Inv.set_stock sku (Inv.get_stock inv sku - qty) inv)).
  unfold Inv.remove_stock. destruct (Z.leb_spec qty 0); [lia|].
  unfold bind, get. destruct (Z.ltb_spec (Inv.get_stock inv sku) qty); [lia|].
  split; [reflexivity|]. split; [|split; [|reflexivity]].
  - rewrite get_stock_set_stock. now rewrite decide_True.
  - intros k Hk. rewrite get_stock_set_stock. now rewrite decide_False.
Qed.

(** X2: [remove_stock] of a positive quantity that the stock covers succeeds,
    lowers the stock of that identifier by exactly the quantity and touches
    neither another identifier's stock nor the catalog. *)
Theorem remove_stock_removes inv sku qty :
  0 < qty -> qty <= Inv.get_stock inv sku ->
  exists inv',
    Inv.remove_stock sku qty inv = (Ok tt, inv')
    /\ Inv.get_stock inv' sku = Inv.get_stock inv sku - qty
    /\ (forall k, k <> sku -> Inv.get_stock inv' k = Inv.get_stock inv k)
    /\ _catalog inv' = _catalog inv.
Proof.
  apply remove_stock_effect.
Qed.

Lemma remove_stock_removes_witness :
  0 < 4 /\ 4 <= Inv.get_stock demo_inventory "SKU2"
  /\ exists inv',
       Inv.remove_stock "SKU2" 4 demo_inventory = (Ok tt, inv')
       /\ Inv.get_stock inv' "SKU2" = Inv.get_stock demo_inventory "SKU2" - 4
       /\ (forall k, k <> "SKU2" -> Inv.get_stock inv' k = Inv.get_stock demo_inventory k)
       /\ _catalog inv' = _catalog demo_inventory.
Proof.
  split; [lia|]. split; [vm_compute; discriminate|].
  apply (remove_stock_removes demo_inventory "SKU2" 4); [lia|vm_compute; discriminate].
Defined.



(** X4: taking out what was just put in restores every stock count: on a
    known identifier whose stock is not negative, [add_stock] followed by
    [remove_stock] of the same positive quantity both succeed and leave every
    identifier's stock, and the catalog, as they were. *)
Theorem add_then_remove_stock inv sku qty :
  0 < qty -> Inv.has_sku inv sku = true -> 0 <= Inv.get_stock inv sku ->
  exists inv1 inv2,
    Inv.add_stock sku qty inv = (Ok tt, inv1)
    /\ Inv.remove_stock sku qty inv1 = (Ok tt, inv2)
    /\ (forall k, Inv.get_stock inv2 k = Inv.get_stock inv k)
    /\ _catalog inv2 = _catalog inv.
Proof.
  intros Hq Hs H0.
  destruct (add_stock_effect inv sku qty Hq Hs) as (inv1 & E1 & Hs1 & Ho1 & Hc1).
  destruct (remove_stock_effect inv1 sku qty Hq ltac:(lia)) as (inv2 & E2 & Hs2 & Ho2 & Hc2).
  exists inv1, inv2. split; [exact E1|]. split; [exact E2|]. split; [|congruence].
  intros k. destruct (decide (k = sku)) as [->|Hne]; [lia|].
  now rewrite Ho2, Ho1.
Qed.

Lemma add_then_remove_stock_witness :
  exists inv1 inv2,
    Inv.add_stock "SKU1" 7 demo_inventory = (Ok tt, inv1)
    /\ Inv.remove_stock "SKU1" 7 inv1 = (Ok tt, inv2)
    /\ (forall k, Inv.get_stock inv2 k = Inv.get_stock demo_inventory k)
    /\ _catalog inv2 = _catalog demo_inventory.
Proof.
  apply (add_then_remove_stock demo_inventory "SKU1" 7);
    [lia|reflexivity|vm_compute; discriminate].
Defined.

(** X5: [add_product] always succeeds; afterwards the product is known and
    [get_price] returns its price, no stock count changes (a new identifier
    starts at zero, a known one keeps its stock) and no other catalog entry
    changes. *)
Theorem add_product_registers inv p :
  exists inv',
    Inv.add_product p inv = (Ok tt, inv')
    /\ Inv.has_sku inv' (Product.sku p) = true
    /\ Inv.get_price inv' (Product.sku p) = Ok (Product.price p)
    /\ (forall k, Inv.get_stock inv' k = Inv.get_stock inv k)
    /\ (forall k, k <> Product.sku p -> _catalog inv' !! k = _catalog inv !! k).
Proof.
  unfold Inv.add_product. cbn [_stock _catalog].
  set (inv1 := mkInventory (_stock inv) (<[Product.sku p := p]> (_catalog inv))).
  assert (Hc : _catalog inv1 !! Product.sku p = Some p)
    by (unfold inv1; cbn [_catalog]; apply lookup_insert_eq).
  assert (Ho : forall k, k <> Product.sku p -> _catalog inv1 !! k = _catalog inv !! k).
  { intros k Hk. unfold inv1. cbn [_catalog]. now rewrite lookup_insert_ne. }
  destruct (_stock inv !! Product.sku p) as [n|] eqn:E.
  - exists inv1. split; [reflexivity|]. split; [|split; [|split]].
    + apply has_sku_true. rewrite Hc. eauto.
    + unfold Inv.get_price. now rewrite Hc.
    + reflexivity.
    + exact Ho.
  - exists (snd (Inv.set_stock (Product.sku p) 0 inv1)).
    split; [reflexivity|]. split; [|split; [|split]].
    + apply has_sku_true. unfold Inv.set_stock. cbn [snd _catalog].
      rewrite Hc. eauto.
    + unfold Inv.get_price, Inv.set_stock. cbn [snd _catalog]. now rewrite Hc.
    + intros k. rewrite get_stock_set_stock.
      destruct (decide (Product.sku p = k)) as [<-|Hne]; [|reflexivity].
      unfold Inv.get_stock. now rewrite E.
    + exact Ho.
Qed.

Lemma new_inventory_ok : stock_nonneg Inv.new /\ stock_in_catalog Inv.new.
Proof.
  split.
  - intros sku n H. unfold Inv.new in H. cbn [_stock] in H.
    now rewrite lookup_empty in H.
  - intros sku [n H]. unfold Inv.new in H. cbn [_stock] in H.
    now rewrite lookup_empty in H.
Qed.

(** X6: [get_price] raises a lookup error exactly for the identifiers
    [has_sku] rejects, and [get_stock] of such an identifier on an inventory
    built by the operations is zero. *)
Theorem unknown_sku_reads (ops : list inv_op) (sku : string) :
  let inv := run_ops ops Inv.new in
  (Inv.has_sku inv sku = false <-> Inv.get_price inv sku = Raise (KeyError sku))
  /\ (Inv.has_sku inv sku = false -> Inv.get_stock inv sku = 0).
Proof.
  cbv zeta. destruct (run_ops_ok ops Inv.new new_inventory_ok) as [_ Hc]. split.
  - unfold Inv.has_sku, Inv.get_price.
    destruct (_catalog (run_ops ops Inv.new) !! sku) as [p|] eqn:E.
    + rewrite bool_decide_eq_true_2 by eauto. split; discriminate.
    + rewrite bool_decide_eq_false_2 by (intros [? ?]; discriminate). tauto.
  - intros H. unfold Inv.get_stock.
    destruct (_stock (run_ops ops Inv.new) !! sku) as [n|] eqn:E; [|reflexivity].
    exfalso. apply Bool.not_true_iff_false in H. apply H, has_sku_true, Hc. eauto.
Qed.

(** ** Orders: the decrement loop *)

Lemma remove_stock_catalog sku qty inv :
  _catalog (snd (Inv.remove_stock sku qty inv)) = _catalog inv.
Proof.
  unfold Inv.remove_stock. destruct (qty <=? 0); [reflexivity|].
  unfold bind, get. now destruct (Inv.get_stock inv sku <? qty).
Qed.

Lemma remove_stock_ok_inv sku qty inv inv1 :
  Inv.remove_stock sku qty inv = (Ok tt, inv1) ->
  0 < qty /\ qty <= Inv.get_stock inv sku
  /\ forall k, Inv.get_stock inv1 k
               = if decide (sku = k) then Inv.get_stock inv sku - qty
                 else Inv.get_stock inv k.
Proof.
  unfold Inv.remove_stock. destruct (Z.leb_spec qty 0) as [|Hq]; [discriminate|].
  unfold bind, get.
  destruct (Z.ltb_spec (Inv.get_stock inv sku) qty) as [|Hs]; [discriminate|].
  intros H. apply (f_equal snd) in H. cbn [snd] in H. subst inv1.
  repeat split; try lia. intros k. apply get_stock_set_stock.
Qed.

Lemma remove_loop_cons it items inv :
  for_each (fun it => Inv.remove_stock (OrderItem.sku it) (OrderItem.qty it))
    (it :: items) inv
  = match Inv.remove_stock (OrderItem.sku it) (OrderItem.qty it) inv with
    | (Ok _, inv1) =>
        for_each (fun it => Inv.remove_stock (OrderItem.sku it) (OrderItem.qty it))
          items inv1
    | (Raise e, inv1) => (Raise e, inv1)
    end.
Proof. reflexivity. Qed.

Lemma remove_loop_catalog items : forall inv,
  _catalog (snd (for_each
                   (fun it => Inv.remove_stock (OrderItem.sku it) (OrderItem.qty it))
                   items inv))
  = _catalog inv.
Proof.
  induction items as [|it items IH]; intros inv; [reflexivity|].
  rewrite remove_loop_cons.
  pose proof (remove_stock_catalog (OrderItem.sku it) (OrderItem.qty it) inv) as Hc.
  destruct (Inv.remove_stock _ _ inv) as [[[]|e] inv1]; cbn [snd] in *.
  - now rewrite IH.
  - exact Hc.
Qed.

Lemma remove_loop_invariants items : forall inv,
  stock_nonneg inv /\ stock_in_catalog inv ->
  stock_nonneg (snd (for_each
                       (fun it => Inv.remove_stock (OrderItem.sku it) (OrderItem.qty it))
                       items inv))
  /\ stock_in_catalog
       (snd (for_each
               (fun it => Inv.remove_stock (OrderItem.sku it) (OrderItem.qty it))
               items inv)).
Proof.
  induction items as [|it items IH]; intros inv [Hn Hc]; [now split|].
  rewrite remove_loop_cons.
  pose proof (remove_stock_ok inv (OrderItem.sku it) (OrderItem.qty it) Hn Hc) as H1.
  destruct (Inv.remove_stock _ _ inv) as [[[]|e] inv1]; cbn [snd] in *.
  - now apply IH.
  - exact H1.
Qed.

Lemma remove_loop_total items : forall inv inv',
  for_each (fun it => Inv.remove_stock (OrderItem.sku it) (OrderItem.qty it)) items inv
  = (Ok tt, inv') ->
  forall sku, Inv.get_stock inv' sku = Inv.get_stock inv sku - ordered_qty sku items.
Proof.
  induction items as [|it items IH]; intros inv inv' H sku.
  - cbn in H. injection H as <-. cbn. lia.
  - rewrite remove_loop_cons in H.
    destruct (Inv.remove_stock _ _ inv) as [[[]|e] inv1] eqn:E; [|discriminate].
    apply remove_stock_ok_inv in E as (_ & _ & Hst).
    rewrite (IH _ _ H sku), Hst. cbn [ordered_qty].
    destruct (decide (OrderItem.sku it = sku)) as [Heq|Hne].
    + rewrite bool_decide_eq_true_2 by exact Heq. subst sku. lia.
    + rewrite bool_decide_eq_false_2 by exact Hne. lia.
Qed.

Lemma remove_loop_keeps_nonneg items : forall inv inv' k,
  for_each (fun it => Inv.remove_stock (OrderItem.sku it) (OrderItem.qty it)) items inv
  = (Ok tt, inv') ->
  0 <= Inv.get_stock inv k -> 0 <= Inv.get_stock inv' k.
Proof.
  induction items as [|it items IH]; intros inv inv' k H H0.
  - cbn in H. now injection H as <-.
  - rewrite remove_loop_cons in H.
    destruct (Inv.remove_stock _ _ inv) as [[[]|e] inv1] eqn:E; [|discriminate].
    apply remove_stock_ok_inv in E as (Hq & Hs & Hst).
    apply (IH _ _ _ H). rewrite Hst. destruct (decide (OrderItem.sku it = k)); lia.
Qed.

Lemma remove_loop_items items : forall inv inv',
  for_each (fun it => Inv.remove_stock (OrderItem.sku it) (OrderItem.qty it)) items inv
  = (Ok tt, inv') ->
  forall it, In it items -> 0 < OrderItem.qty it /\ 0 <= Inv.get_stock inv' (OrderItem.sku it).
Proof.
  induction items as [|x items IH]; intros inv inv' H it Hin; [destruct Hin|].
  rewrite remove_loop_cons in H.
  destruct (Inv.remove_stock _ _ inv) as [[[]|e] inv1] eqn:E; [|discriminate].
  destruct Hin as [->|Hin]; [|exact (IH _ _ H it Hin)].
  apply remove_stock_ok_inv in E as (Hq & Hs & Hst). split; [exact Hq|].
  apply (remove_loop_keeps_nonneg _ _ _ _ H). rewrite Hst.
  rewrite decide_True by reflexivity. lia.
Qed.

Lemma validate_items_ok inv items :
  validate_items inv items = Ok tt ->
  forall it, In it items ->
    Inv.has_sku inv (OrderItem.sku it) = true
    /\ OrderItem.qty it <= Inv.get_stock inv (OrderItem.sku it).
Proof.
  induction items as [|x items IH]; intros H it Hin; [destruct Hin|].
  cbn in H. destruct (Inv.has_sku inv (OrderItem.sku x)) eqn:Ex; [|discriminate].
  cbn in H.
  destruct (Z.ltb_spec (Inv.get_stock inv (OrderItem.sku x)) (OrderItem.qty x));
    [discriminate|].
  destruct Hin as [<-|Hin]; [now split|now apply IH].
Qed.

(** What a successful call went through. *)
Lemma process_order_ok_inv now order inv payer receipt inv' payer' :
  process_order now order (inv, payer) = (Ok receipt, (inv', payer')) ->
  exists subtotal,
    validate_items inv (Order.items order) = Ok tt
    /\ calculate_subtotal order inv = Ok subtotal
    /\ Bank.withdraw (grand_total_of (apply_coupon subtotal (Order.coupon_code order))) payer
       = (Ok tt, payer')
    /\ for_each (fun it => Inv.remove_stock (OrderItem.sku it) (OrderItem.qty it))
         (Order.items order) inv = (Ok tt, inv')
    /\ receipt = Receipt.mk (Order.order_id order)
                   (List.map (fun it => (OrderItem.sku it, OrderItem.qty it))
                      (Order.items order))
                   subtotal (apply_coupon subtotal (Order.coupon_code order))
                   (compute_tax (apply_coupon subtotal (Order.coupon_code order)))
                   (grand_total_of (apply_coupon subtotal (Order.coupon_code order)))
                   now (coupon_or_empty (Order.coupon_code order)).
Proof.
  rewrite process_order_unfold.
  destruct (validate_items inv (Order.items order)) as [[]|e]; [|discriminate].
  destruct (calculate_subtotal order inv) as [subtotal|e]; [|discriminate].
  cbv zeta.
  destruct (Bank.withdraw _ payer) as [[[]|e] payer1] eqn:Ew; [|discriminate].
  destruct (for_each _ (Order.items order) inv) as [[[]|e] inv1]; [|discriminate].
  intros [= <- <- <-]. exists subtotal. repeat split. exact Ew.
Qed.

(** X7: an order without items can never be processed: whatever the coupon,
    the inventory and the payer, the grand total is zero, the withdrawal
    raises a value error, and nothing is changed. *)
Theorem process_order_empty now order_id code inv payer :
  process_order now (Order.mk order_id [] code) (inv, payer)
  = (Raise (ValueError "Withdraw must be positive"), (inv, payer)).
Proof.
  rewrite process_order_unfold. cbn [Order.items validate_items].
  unfold calculate_subtotal. cbn [Order.items subtotal_loop Order.coupon_code]. cbv zeta.
  assert (H : apply_coupon 0 code = 0%float).
  { destruct code as [c|]; [|reflexivity]. rewrite apply_coupon_some.
    repeat case_bool_decide; reflexivity. }
  rewrite H, withdraw_cases. reflexivity.
Qed.



(** X9: a successful order takes from the stock exactly what it lists: the
    stock of every identifier goes down by the sum of the quantities of the
    items that name it, items naming the same identifier adding up, and
    identifiers the order does not name keep their stock. *)
Theorem process_order_stock now order inv payer receipt inv' payer' :
  process_order now order (inv, payer) = (Ok receipt, (inv', payer')) ->
  forall sku,
    Inv.get_stock inv' sku = Inv.get_stock inv sku - ordered_qty sku (Order.items order).
Proof.
  intros H. apply process_order_ok_inv in H as (subtotal & _ & _ & _ & Hl & _).
  exact (remove_loop_total _ _ _ Hl).
Qed.

Lemma process_order_stock_witness :
  exists receipt inv' payer',
    process_order "2026-01-01T00:00:00" demo_order (demo_inventory, Bank.new "Shaik" 500%float)
    = (Ok receipt, (inv', payer'))
    /\ forall sku,
         Inv.get_stock inv' sku
         = Inv.get_stock demo_inventory sku - ordered_qty sku (Order.items demo_order).
Proof.
  destruct (process_order "2026-01-01T00:00:00" demo_order
              (demo_inventory, Bank.new "Shaik" 500%float))
    as [[receipt|e] [inv' payer']] eqn:E.
  - exists receipt, inv', payer'. split; [reflexivity|].
    exact (process_order_stock _ _ _ _ _ _ _ E).
  - exfalso. apply (f_equal (fun x => is_Ok (fst x))) in E. vm_compute in E. discriminate.
Defined.

(** X10: a successful order never oversells and never ships a quantity that
    is not positive: every item's identifier is in the catalog, its quantity
    is positive, and the quantities the order lists for that identifier,
    taken together, are within the stock there was. *)
Theorem process_order_never_oversells now order inv payer receipt inv' payer' :
  process_order now order (inv, payer) = (Ok receipt, (inv', payer')) ->
  forall it, In it (Order.items order) ->
    Inv.has_sku inv (OrderItem.sku it) = true
    /\ 0 < OrderItem.qty it
    /\ ordered_qty (OrderItem.sku it) (Order.items order)
       <= Inv.get_stock inv (OrderItem.sku it).
Proof.
  intros H it Hin.
  apply process_order_ok_inv in H as (subtotal & Hv & _ & _ & Hl & _).
  destruct (validate_items_ok _ _ Hv it Hin) as [Hk _].
  destruct (remove_loop_items _ _ _ Hl it Hin) as [Hq H0].
  rewrite (remove_loop_total _ _ _ Hl) in H0. repeat split; [exact Hk|exact Hq|lia].
Qed.

Lemma process_order_never_oversells_witness :
  exists receipt inv' payer',
    process_order "2026-01-01T00:00:00" demo_order (demo_inventory, Bank.new "Shaik" 500%float)
    = (Ok receipt, (inv', payer'))
    /\ forall it, In it (Order.items demo_order) ->
         Inv.has_sku demo_inventory (OrderItem.sku it) = true
         /\ 0 < OrderItem.qty it
         /\ ordered_qty (OrderItem.sku it) (Order.items demo_order)
            <= Inv.get_stock demo_inventory (OrderItem.sku it).
Proof.
  destruct (process_order "2026-01-01T00:00:00" demo_order
              (demo_inventory, Bank.new "Shaik" 500%float))
    as [[receipt|e] [inv' payer']] eqn:E.
  - exists receipt, inv', payer'. split; [reflexivity|].
    exact (process_order_never_oversells _ _ _ _ _ _ _ E).
  - exfalso. apply (f_equal (fun x => is_Ok (fst x))) in E. vm_compute in E. discriminate.
Defined.

(** X11: whatever the outcome of [process_order], success, rejection or a
    failure half-way through the decrements, the inventory it leaves keeps
    the invariants (no negative stock, no stock without a catalog entry) and
    the catalog it started with. *)
Theorem process_order_keeps_inventory_sound now order inv payer :
  stock_nonneg inv -> stock_in_catalog inv ->
  let inv' := fst (snd (process_order now order (inv, payer))) in
  stock_nonneg inv' /\ stock_in_catalog inv' /\ _catalog inv' = _catalog inv.
Proof.
  intros Hn Hc. cbv zeta. rewrite process_order_unfold.
  destruct (validate_items inv (Order.items order)) as [[]|e]; [|now repeat split].
  destruct (calculate_subtotal order inv) as [subtotal|e]; [|now repeat split].
  cbv zeta.
  destruct (Bank.withdraw _ payer) as [[[]|e] payer1]; [|now repeat split].
  pose proof (remove_loop_invariants (Order.items order) inv (conj Hn Hc)) as [H1 H2].
  pose proof (remove_loop_catalog (Order.items order) inv) as H3.
  destruct (for_each _ (Order.items order) inv) as [[[]|e] inv1];
    cbn [fst snd] in *; now repeat split.
Qed.

Lemma process_order_keeps_inventory_sound_witness :
  stock_nonneg demo_inventory /\ stock_in_catalog demo_inventory
  /\ stock_nonneg
       (fst (snd (process_order "2026-01-01T00:00:00" twice_order
                    (demo_inventory, Bank.new "Shaik" 500%float)))).
Proof.
  assert (H : stock_nonneg demo_inventory /\ stock_in_catalog demo_inventory).
  { change demo_inventory
      with (run_ops [AddProduct (Product.mk "SKU1" "Pen" 10.5%float "stationery");
                     AddProduct (Product.mk "SKU2" "Book" 99.0%float "books");
                     AddStock "SKU1" 10; AddStock "SKU2" 5] Inv.new).
    apply run_ops_ok, new_inventory_ok. }
  destruct H as [Hn Hc]. split; [exact Hn|]. split; [exact Hc|].
  exact (proj1 (process_order_keeps_inventory_sound
                  "2026-01-01T00:00:00" twice_order demo_inventory
                  (Bank.new "Shaik" 500%float) Hn Hc)).
Defined.

(** ** Bank account: failures and the payer's name *)

(** X12: a [deposit] or a [withdraw] that raises leaves the account exactly
    as it was, and neither ever changes the owner's name. *)
Theorem bank_account_failures (amount : pyobj) (x : float) (self : BankAccount) :
  (is_Ok (fst (Bank.deposit amount self)) = false ->
     snd (Bank.deposit amount self) = self)
  /\ owner (snd (Bank.deposit amount self)) = owner self
  /\ (is_Ok (fst (Bank.withdraw x self)) = false ->
        snd (Bank.withdraw x self) = self)
  /\ owner (snd (Bank.withdraw x self)) = owner self.
Proof.
  repeat split.
  - destruct amount as [n|y|s|]; try reflexivity.
    + rewrite deposit_int_cases. destruct (n <=? 0); [reflexivity|].
      destruct (float_of_int n); [discriminate|reflexivity].
    + rewrite deposit_float_cases. destruct (y <=? 0)%float; [reflexivity|discriminate].
  - destruct amount as [n|y|s|]; try reflexivity.
    + rewrite deposit_int_cases. destruct (n <=? 0); [reflexivity|].
      destruct (float_of_int n); reflexivity.
    + rewrite deposit_float_cases. destruct (y <=? 0)%float; reflexivity.
  - rewrite withdraw_cases. destruct (x <=? 0)%float; [reflexivity|].
    destruct (balance self <? x)%float; [reflexivity|discriminate].
  - rewrite withdraw_cases. destruct (x <=? 0)%float; [reflexivity|].
    destruct (balance self <? x)%float; reflexivity.
Qed.

Lemma bank_account_failures_witness :
  snd (Bank.deposit (PyStr "10") (Bank.new "Tester" 50%float)) = Bank.new "Tester" 50%float
  /\ snd (Bank.withdraw 1000%float (Bank.new "Tester" 50%float)) = Bank.new "Tester" 50%float.
Proof.
  pose proof (bank_account_failures (PyStr "10") 1000%float (Bank.new "Tester" 50%float))
    as (Hd & _ & Hw & _).
  split; [apply Hd|apply Hw]; reflexivity.
Defined.

(** ** Tax *)

Lemma SFmul_nonneg x m e :
  sf_nonneg x = true ->
  sf_nonneg (SFmul prec emax x (S754_finite false m e)) = true.
Proof.
  destruct x as [s|s| |s mx ex]; try destruct s; try discriminate; try reflexivity.
  intros _. cbn [SFmul xorb]. apply binary_round_aux_nonneg. lia.
Qed.

Lemma SFdiv_finite_nonneg m1 e1 m2 e2 :
  sf_nonneg (SFdiv prec emax (S754_finite false m1 e1) (S754_finite false m2 e2)) = true.
Proof.
  cbn [SFdiv xorb]. unfold SFdiv_core_binary.
  set (m' := match _ with Zpos _ => _ | Z0 => _ | Zneg _ => _ end).
  assert (H : 0 <= m').
  { unfold m'. destruct (_ - _ - _) as [|p|p]; try lia.
    rewrite Z.shiftl_mul_pow2 by lia.
    apply Z.mul_nonneg_nonneg; [lia|apply Z.pow_nonneg; lia]. }
  pose proof (Z.div_pos m' (Zpos m2) H ltac:(lia)) as Hq.
  unfold Z.div in Hq. destruct (Z.div_eucl m' (Zpos m2)) as [q r]. cbn [fst] in Hq.
  now apply binary_round_aux_nonneg.
Qed.

Lemma round_nonneg x ndigits :
  at_least_zero x -> at_least_zero (Py.round x ndigits).
Proof.
  unfold at_least_zero. intros H. pose proof H as H'. rewrite leb_zero_l in H'.
  unfold Py.round.
  destruct (Prim2SF x) as [s|s| |s m e]; try exact H.
  destruct s; [discriminate|].
  destruct (if 0 <=? e then _ else _) as [|k|k]; try reflexivity.
  apply SF2Prim_nonneg, SFdiv_finite_nonneg.
Qed.

(** X13: the tax on an amount that is at least zero is at least zero, and so
    is the grand total, tax included. *)
Theorem compute_tax_nonneg (amount : float) :
  at_least_zero amount ->
  at_least_zero (compute_tax amount) /\ at_least_zero (grand_total_of amount).
Proof.
  intros H.
  assert (Ht : at_least_zero (compute_tax amount)).
  { unfold compute_tax, compute_tax_rate. apply round_nonneg.
    unfold at_least_zero in *. rewrite leb_zero_l in *. rewrite mul_spec.
    change (Prim2SF 0.18) with (S754_finite false 6485183463413514 (-55)).
    now apply SFmul_nonneg. }
  split; [exact Ht|]. unfold grand_total_of. now apply add_nonneg.
Qed.

Lemma compute_tax_nonneg_witness :
  at_least_zero 108%float
  /\ at_least_zero (compute_tax 108%float) /\ at_least_zero (grand_total_of 108%float).
Proof.
  split; [reflexivity|]. apply (compute_tax_nonneg 108%float). reflexivity.
Defined.

(** ** A difference is at most what it is taken from *)

Lemma binary_round_aux_nonpos m e l :
  0 <= m -> sf_nonpos (binary_round_aux prec emax true m e l) = true.
Proof.
  intros H. unfold binary_round_aux.
  pose proof (shr_fexp_nonneg m e l H) as H1.
  destruct (shr_fexp prec emax m e l) as [mrs' e']. cbn [fst] in H1.
  pose proof (shr_fexp_nonneg _ e' loc_Exact
                (round_nearest_even_nonneg _ (loc_of_shr_record mrs') H1)) as H2.
  destruct (shr_fexp prec emax _ e' loc_Exact) as [mrs'' e'']. cbn [fst] in H2.
  destruct (shr_m mrs'') as [|p|p]; try lia; try reflexivity.
  destruct (e'' <=? emax - prec)%Z; reflexivity.
Qed.

Lemma binary_round_le mx ex ms es :
  bounded prec emax ms es = true -> ex <= es ->
  Zpos mx <= Zpos ms * 2 ^ (es - ex) ->
  match binary_round prec emax false mx ex with
  | S754_zero _ => True
  | S754_finite false mr er => emin <= er /\ scaled mr er <= scaled ms es
  | _ => False
  end.
Proof.
  intros Hb He Hle. unfold binary_round.
  set (e' := fexp prec emax (Zpos (digits2_pos mx) + ex)).
  destruct (Z.le_gt_cases ex e') as [Hge|Hlt].
  - assert (Hs : shl_align mx ex e' = (mx, ex)).
    { unfold shl_align. destruct (e' - ex) as [|p|p] eqn:E; try reflexivity; lia. }
    rewrite Hs. apply binary_round_aux_le; try assumption; lia.
  - pose proof (shl_align_fst mx ex e' ltac:(lia)) as Hf.
    assert (Hsnd : snd (shl_align mx ex e') = e').
    { unfold shl_align. destruct (e' - ex) as [|p|p] eqn:E; try reflexivity; lia. }
    destruct (shl_align mx ex e') as [mz ez]. cbn [fst snd] in *. subst ez.
    apply binary_round_aux_le; try assumption; try lia.
    rewrite Hf. replace (es - e') with ((es - ex) + (ex - e')) by lia.
    rewrite Z.pow_add_r, Z.mul_assoc by lia.
    apply Z.mul_le_mono_nonneg_r; [apply Z.pow_nonneg; lia|exact Hle].
Qed.

Lemma scaled_SFleb ma ea mb eb :
  bounded prec emax ma ea = true -> bounded prec emax mb eb = true ->
  scaled ma ea <= scaled mb eb ->
  SFleb (S754_finite false ma ea) (S754_finite false mb eb) = true.
Proof.
  intros Ha Hb. unfold SFleb, scaled; cbn.
  apply bounded_inv in Ha as (Hea & Hma & Hna).
  apply bounded_inv in Hb as (Heb & Hmb & Hnb).
  change emin with (-1074) in *.
  destruct (Z.compare_spec ea eb) as [He|He|He]; try reflexivity.
  - subst eb. intros H.
    assert (0 < 2 ^ (ea - -1074)) by (apply Z.pow_pos_nonneg; lia).
    assert (Zpos ma <= Zpos mb) by nia.
    change (Pos.compare_cont Eq ma mb) with (Pos.compare ma mb).
    destruct (Pos.compare_spec ma mb); try reflexivity; lia.
  - intros H. exfalso.
    specialize (Hna ltac:(lia)).
    replace (ea - -1074) with ((eb - -1074) + (ea - eb)) in H by lia.
    rewrite Z.pow_add_r in H by lia.
    assert (0 < 2 ^ (eb - -1074)) by (apply Z.pow_pos_nonneg; lia).
    assert (2 ^ 1 <= 2 ^ (ea - eb)) by (apply Z.pow_le_mono_r; lia).
    change (2 ^ 1) with 2 in *. change (2 ^ 52) with 4503599627370496 in *.
    change (2 ^ 53) with 9007199254740992 in *.
    generalize dependent (2 ^ (eb - -1074)). intros A HA HA0.
    generalize dependent (2 ^ (ea - eb)). intros B HB HB0.
    assert (Zpos mb * A < Zpos ma * (A * B)); [|lia].
    apply Z.lt_le_trans with (Zpos ma * 2 * A).
    + apply Z.mul_lt_mono_pos_r; lia.
    + rewrite (Z.mul_comm A B), Z.mul_assoc.
      apply Z.mul_le_mono_nonneg_r; [lia|].
      apply Z.mul_le_mono_nonneg_l; lia.
Qed.

Lemma SFleb_refl x : x <> S754_nan -> SFleb x x = true.
Proof.
  destruct x as [s|s| |s m e]; try destruct s; try reflexivity; try congruence;
    intros _; unfold SFleb; cbn; rewrite Z.compare_refl;
    change (Pos.compare_cont Eq m m) with (Pos.compare m m);
    now rewrite Pos.compare_refl.
Qed.

Lemma sf_nonpos_le_nonneg x y :
  sf_nonpos x = true -> sf_nonneg y = true -> SFleb x y = true.
Proof.
  destruct x as [sx|sx| |sx mx ex], y as [sy|sy| |sy my ey];
    try destruct sx; try destruct sy; try discriminate; reflexivity.
Qed.

Lemma SFsub_le x y :
  valid_binary x = true -> valid_binary (SFsub prec emax x y) = true ->
  sf_nonneg x = true -> (forall s, x <> S754_infinity s) ->
  sf_nonneg y = true ->
  SFleb (SFsub prec emax x y) x = true.
Proof.
  intros Vx Vr Hx Hfin Hy.
  destruct x as [sx|sx| |sx mx ex]; try discriminate;
    [|exfalso; eapply Hfin; reflexivity|].
  - destruct y as [sy|sy| |sy my ey]; try destruct sx; try destruct sy;
      try discriminate; reflexivity.
  - destruct sx; [discriminate|].
    destruct y as [sy|sy| |sy my ey]; try discriminate.
    + apply SFleb_refl. discriminate.
    + destruct sy; [discriminate|reflexivity].
    + destruct sy; [discriminate|].
      cbn [SFsub cond_Zopp] in *.
      set (ez := Z.min ex ey) in *.
      cbn in Vx. pose proof (bounded_inv _ _ Vx) as (Hex & _).
      pose proof (shl_align_fst mx ex ez ltac:(lia)) as HX.
      set (X := Zpos (fst (shl_align mx ex ez))) in *.
      set (Y := Zpos (fst (shl_align my ey ez))) in *.
      assert (HY : 0 < Y) by (unfold Y; lia).
      destruct (X - Y) as [|d|d] eqn:ED.
      * reflexivity.
      * cbn [binary_normalize] in *.
        pose proof (binary_round_le d ez mx ex Vx ltac:(lia) ltac:(lia)) as H.
        destruct (binary_round prec emax false d ez) as [sr|sr| |sr mr er];
          try (exfalso; exact H).
        -- now destruct sr.
        -- destruct sr; [destruct H|]. destruct H as [_ Hsc].
           now apply scaled_SFleb.
      * cbn [binary_normalize]. apply sf_nonpos_le_nonneg; [|reflexivity].
        unfold binary_round. destruct (shl_align d ez _) as [mz e'].
        apply binary_round_aux_nonpos. lia.
Qed.

Lemma sub_le x y :
  at_least_zero x -> is_infinity x = false -> at_least_zero y ->
  (x - y <=? x)%float = true.
Proof.
  unfold at_least_zero. rewrite !leb_zero_l, FloatAxioms.leb_spec. intros Hx Hfin Hy.
  pose proof (Prim2SF_valid (x - y)) as Vr. rewrite sub_spec in *.
  apply SFsub_le; auto using Prim2SF_valid, is_infinity_false.
Qed.

Lemma leb_refl x : is_nan x = false -> (x <=? x)%float = true.
Proof.
  unfold is_nan. rewrite FloatAxioms.leb_spec, FloatAxioms.eqb_spec. intros H.
  apply SFleb_refl. intros E. rewrite E in H. discriminate.
Qed.

Lemma mul_tenth_nonneg x : at_least_zero x -> at_least_zero (x * 0.10)%float.
Proof.
  unfold at_least_zero. rewrite !leb_zero_l, mul_spec.
  change (Prim2SF 0.10) with (S754_finite false 7205759403792794 (-56)).
  apply SFmul_nonneg.
Qed.

Lemma leb_not_nan_l a b : (a <=? b)%float = true -> is_nan a = false.
Proof.
  unfold is_nan. rewrite FloatAxioms.leb_spec, FloatAxioms.eqb_spec. intros H.
  destruct (Prim2SF a) as [s|s| |s m e]; try discriminate H.
  - reflexivity.
  - destruct s; reflexivity.
  - unfold SFeqb; cbn. rewrite Z.compare_refl.
    change (Pos.compare_cont Eq m m) with (Pos.compare m m).
    rewrite Pos.compare_refl. destruct s; reflexivity.
Qed.

Lemma max_sub_bounds x y :
  at_least_zero x -> is_infinity x = false -> at_least_zero y ->
  (Py.max (x - y) 0 <=? x)%float = true /\ at_least_zero (Py.max (x - y) 0).
Proof.
  intros Hx Hfin Hy. unfold Py.max.
  pose proof (sub_le x y Hx Hfin Hy) as Hle.
  destruct (x - y <? 0)%float eqn:E; [split; [exact Hx|reflexivity]|].
  split; [exact Hle|].
  apply not_ltb_leb; [exact (leb_not_nan_l _ _ Hle)|reflexivity|exact E].
Qed.

(** X14: a coupon never raises the price and never makes it negative: for a
    finite subtotal that is at least zero and for every code, what
    [apply_coupon] returns lies between zero and the subtotal. *)
Theorem apply_coupon_at_most_subtotal (subtotal : float) (code : option string) :
  at_least_zero subtotal -> is_infinity subtotal = false ->
  at_least_zero (apply_coupon subtotal code)
  /\ (apply_coupon subtotal code <=? subtotal)%float = true.
Proof.
  intros H0 Hfin.
  assert (Hsame : at_least_zero subtotal /\ (subtotal <=? subtotal)%float = true)
    by (split; [exact H0|apply leb_refl, nonneg_not_nan, H0]).
  destruct code as [code|]; [|exact Hsame].
  rewrite apply_coupon_some.
  repeat case_bool_decide; try exact Hsame.
  - destruct (max_sub_bounds subtotal (subtotal * 0.10)%float H0 Hfin
                (mul_tenth_nonneg _ H0)); now split.
  - destruct (200 <=? subtotal)%float; [|exact Hsame].
    destruct (max_sub_bounds subtotal 50%float H0 Hfin eq_refl); now split.
Qed.

Lemma apply_coupon_at_most_subtotal_witness :
  at_least_zero 120%float /\ is_infinity 120%float = false
  /\ at_least_zero (apply_coupon 120%float (Some "SAVE10"))
  /\ (apply_coupon 120%float (Some "SAVE10") <=? 120)%float = true.
Proof.
  split; [reflexivity|]. split; [reflexivity|].
  apply (apply_coupon_at_most_subtotal 120%float (Some "SAVE10")); reflexivity.
Defined.

(** X15: a successful withdrawal never raises the balance: taking an amount
    that is not NaN from a finite balance that is at least zero leaves a
    balance between zero and the old one. *)
Theorem withdraw_lowers_balance (amount : float) (self self' : BankAccount) :
  at_least_zero (balance self) -> is_infinity (balance self) = false ->
  is_nan amount = false ->
  Bank.withdraw amount self = (Ok tt, self') ->
  at_least_zero (balance self')
  /\ (balance self' <=? balance self)%float = true.
Proof.
  intros H0 Hfin Hnan. rewrite withdraw_cases.
  destruct (amount <=? 0)%float eqn:E1; [discriminate|].
  destruct (balance self <? amount)%float eqn:E2; [discriminate|].
  intros [= <-]. cbn [balance].
  pose proof (positive_at_least_zero _ E1 Hnan) as Ha.
  split; [|now apply sub_le].
  apply sub_nonneg; [exact Ha| |].
  - apply not_ltb_leb; [now apply nonneg_not_nan|exact Hnan|exact E2].
  - (* an amount within a finite balance is finite *)
    unfold is_infinity in *. unfold at_least_zero in *.
    rewrite FloatAxioms.eqb_spec, abs_spec in *.
    rewrite FloatAxioms.ltb_spec in E2. rewrite leb_zero_l in Ha, H0.
    change (Prim2SF infinity) with (S754_infinity false) in *.
    destruct (Prim2SF amount) as [sa|sa| |sa ma ea]; try reflexivity.
    destruct sa; [discriminate|].
    destruct (Prim2SF (balance self)) as [sb|sb| |sb mb eb]; try destruct sb;
      try discriminate; try reflexivity.
Qed.

Lemma withdraw_lowers_balance_witness :
  at_least_zero (balance (Bank.new "Tester" 50%float))
  /\ Bank.withdraw 20.5%float (Bank.new "Tester" 50%float) = (Ok tt, Bank.new "Tester" 29.5%float)
  /\ at_least_zero 29.5%float /\ (29.5 <=? 50)%float = true.
Proof.
  split; [reflexivity|]. split; [reflexivity|].
  apply (withdraw_lowers_balance 20.5%float (Bank.new "Tester" 50%float)
           (Bank.new "Tester" 29.5%float)); reflexivity.
Defined.

(** ** [calculator.py] and [p1.py] *)



(** X17: [divide] raises its value error exactly when the divisor is a zero,
    of either sign; for every other divisor, NaN and the infinities
    included, it returns the quotient. *)
Theorem divide_by_zero (a b : float) :
  (Calculator.divide a b = Raise (ValueError "Cannot divide by zero")
   <-> exists s, Prim2SF b = S754_zero s)
  /\ ((forall s, Prim2SF b <> S754_zero s) ->
      Calculator.divide a b = Ok (a / b)%float).
Proof.
  unfold Calculator.divide. rewrite FloatAxioms.eqb_spec.
  change (Prim2SF 0) with (S754_zero false).
  destruct (Prim2SF b) as [s|s| |s m e]; try destruct s; cbn; split;
    try (split; [eauto; discriminate|intros [s' Hs]; discriminate Hs || reflexivity]);
    try (intros H; exfalso; eapply H; reflexivity); try reflexivity;
    try (split; [intros _; eauto|reflexivity]).
Qed.

Lemma divide_by_zero_witness :
  Calculator.divide 8%float (-0)%float = Raise (ValueError "Cannot divide by zero")
  /\ Calculator.divide 8%float 2%float = Ok 4%float.
Proof.
  split.
  - apply (divide_by_zero 8%float (-0)%float). exists true. reflexivity.
  - apply (divide_by_zero 8%float 2%float). intros s. vm_compute. discriminate.
Defined.

(** X18: [is_even] holds exactly for the doubles of integers, negative ones
    included, and flips between neighbours. *)
Theorem is_even_spec (n : Z) :
  (P1.is_even n = true <-> exists k, n = 2 * k)
  /\ P1.is_even (n + 1) = negb (P1.is_even n)
  /\ P1.is_even (- n) = P1.is_even n.
Proof.
  unfold P1.is_even. repeat split.
  - intros H. apply Z.eqb_eq in H. exists (n / 2).
    pose proof (Z.div_mod n 2 ltac:(lia)). lia.
  - intros [k ->]. apply Z.eqb_eq. rewrite Z.mul_comm. apply Z.mod_mul. lia.
  - pose proof (Z.mod_pos_bound n 2 ltac:(lia)).
    pose proof (Z.mod_pos_bound (n + 1) 2 ltac:(lia)).
    pose proof (Z.div_mod n 2 ltac:(lia)).
    pose proof (Z.div_mod (n + 1) 2 ltac:(lia)).
    destruct (Z.eqb_spec (n mod 2) 0), (Z.eqb_spec ((n + 1) mod 2) 0); cbn; try reflexivity; lia.
  - pose proof (Z.mod_pos_bound n 2 ltac:(lia)).
    pose proof (Z.mod_pos_bound (- n) 2 ltac:(lia)).
    pose proof (Z.div_mod n 2 ltac:(lia)).
    pose proof (Z.div_mod (- n) 2 ltac:(lia)).
    destruct (Z.eqb_spec (n mod 2) 0), (Z.eqb_spec ((- n) mod 2) 0); try reflexivity; lia.
Qed.

(** *** Palindromes *)











(** *** Counting words *)













(** ** CSV parsing: blank text and what a successful parse returns *)

Lemma rstrip_all_space s : all_space s = true -> rstrip s = EmptyString.
Proof.
  induction s as [|c r IH]; [reflexivity|]. simpl. intros H.
  apply andb_true_iff in H as [Hc Hr]. now rewrite (IH Hr), Hc.
Qed.

Lemma strip_all_space s : all_space s = true -> strip s = EmptyString.
Proof.
  intros H. unfold strip. now rewrite rstrip_all_space.
Qed.

Lemma splitlines_line_feed r :
  Forall (fun ln => all_space ln = true) (splitlines (String "010" r)) ->
  Forall (fun ln => all_space ln = true) (splitlines r).
Proof.
  simpl. destruct r as [|c' r']; [constructor|].
  intros H. now inversion H.
Qed.

Lemma splitlines_all_space s :
  all_space s = true -> Forall (fun ln => all_space ln = true) (splitlines s).
Proof.
  induction s as [|c r IH]; [constructor|].
  intros H. simpl in H. apply andb_true_iff in H as [Hc Hr].
  specialize (IH Hr).
  change (splitlines (String c r))
    with (if is_linebreak c then
            EmptyString ::
              match r with
              | String c' r' =>
                  if Ascii.eqb c "013" && Ascii.eqb c' "010" then splitlines r'
                  else splitlines r
              | EmptyString => []
              end
          else match splitlines r with
               | h :: t => String c h :: t
               | [] => [String c EmptyString]
               end).
  destruct (is_linebreak c).
  - constructor; [reflexivity|].
    destruct r as [|c' r']; [constructor|].
    destruct (Ascii.eqb c "013" && Ascii.eqb c' "010") eqn:E; [|exact IH].
    apply andb_true_iff in E as [_ E]. apply Ascii.eqb_eq in E. subst c'.
    now apply splitlines_line_feed.
  - destruct (splitlines r) as [|h t].
    + repeat constructor. simpl. now rewrite Hc.
    + inversion IH; subst. constructor; [|assumption]. simpl. now rewrite Hc.
Qed.

Lemma nonblank_lines_all_space text : all_space text = true -> nonblank_lines text = [].
Proof.
  intros H. unfold nonblank_lines.
  pose proof (splitlines_all_space text H) as Hl.
  induction Hl as [|ln lns Hln _ IH]; [reflexivity|].
  simpl. now rewrite (strip_all_space ln Hln).
Qed.

(** X22: a text made of whitespace only (blank lines, spaces, tabs, or
    nothing at all) parses to the empty list of products, whatever [float]
    accepts. *)
Theorem parse_products_csv_blank_text
    (float_of_str : string -> option float) (text : string) :
  all_space text = true -> parse_products_csv float_of_str text = Ok [].
Proof.
  intros H. unfold parse_products_csv, data_rows.
  now rewrite (nonblank_lines_all_space text H).
Qed.

Lemma parse_products_csv_blank_text_witness :
  all_space ("   " ++ String "010" (String "009" ""))%string = true
  /\ parse_products_csv decimal_float_of_str
       ("   " ++ String "010" (String "009" ""))%string = Ok [].
Proof.
  split; [reflexivity|].
  apply (parse_products_csv_blank_text decimal_float_of_str). reflexivity.
Defined.

Section CSVShape.

Variable float_of_str : string -> option float.


End CSVShape.



(** ** Integers within the range of floats convert *)

Lemma binary_round_aux_opp m e l :
  binary_round_aux prec emax true m e l
  = SFopp (binary_round_aux prec emax false m e l).
Proof.
  unfold binary_round_aux.
  destruct (shr_fexp prec emax m e l) as [mrs' e'].
  destruct (shr_fexp prec emax _ e' loc_Exact) as [mrs'' e''].
  destruct (shr_m mrs'') as [|p|p]; try reflexivity.
  now destruct (e'' <=? emax - prec).
Qed.

Lemma binary_round_opp m e :
  binary_round prec emax true m e = SFopp (binary_round prec emax false m e).
Proof.
  unfold binary_round. destruct (shl_align m e _) as [mz ez].
  apply binary_round_aux_opp.
Qed.

Lemma binary_round_int_finite p :
  Zpos p <= 2 ^ 1023 ->
  forall s, binary_round prec emax false p 0 <> S754_infinity s.
Proof.
  intros Hp s E.
  assert (Hb : bounded prec emax 4503599627370496 971 = true) by reflexivity.
  pose proof (binary_round_le p 0 4503599627370496 971 Hb ltac:(lia)) as H.
  rewrite E in H. apply H.
  change (Zpos 4503599627370496) with (2 ^ 52).
  rewrite <- Z.pow_add_r by lia. exact Hp.
Qed.

Lemma float_of_int_in_range n :
  - 2 ^ 1023 <= n <= 2 ^ 1023 -> is_Ok (float_of_int n) = true.
Proof.
  intros Hn. unfold float_of_int.
  destruct n as [|p|p]; cbn [binary_normalize].
  - reflexivity.
  - pose proof (binary_round_int_finite p ltac:(lia)) as H.
    destruct (binary_round prec emax false p 0) as [s|s| |s m e]; try reflexivity.
    exfalso. now apply (H s).
  - rewrite binary_round_opp.
    pose proof (binary_round_int_finite p ltac:(lia)) as H.
    destruct (binary_round prec emax false p 0) as [s|s| |s m e]; try reflexivity.
    exfalso. now apply (H s).
Qed.

(** ** Subtotals *)

Lemma subtotal_loop_known inv items : forall acc,
  (forall it, In it items ->
     Inv.has_sku inv (OrderItem.sku it) = true
     /\ - 2 ^ 1023 <= OrderItem.qty it <= 2 ^ 1023) ->
  is_Ok (subtotal_loop inv items acc) = true.
Proof.
  induction items as [|x items IH]; intros acc H; [reflexivity|].
  destruct (H x ltac:(now left)) as [Hk Hq].
  cbn [subtotal_loop]. rewrite Hk. cbn [negb].
  apply has_sku_true in Hk as [p Hp]. unfold Inv.get_price. rewrite Hp.
  pose proof (float_of_int_in_range _ Hq) as Hf.
  destruct (float_of_int (OrderItem.qty x)) as [q|e]; [|discriminate].
  apply IH. intros it Hit. apply H. now right.
Qed.

Lemma subtotal_loop_unknown inv pre it post : forall acc,
  (forall x, In x pre ->
     Inv.has_sku inv (OrderItem.sku x) = true
     /\ - 2 ^ 1023 <= OrderItem.qty x <= 2 ^ 1023) ->
  Inv.has_sku inv (OrderItem.sku it) = false ->
  subtotal_loop inv (pre ++ it :: post) acc
  = Raise (KeyError ("unknown sku: " ++ OrderItem.sku it)%string).
Proof.
  induction pre as [|x pre IH]; intros acc H Hu.
  - cbn. now rewrite Hu.
  - destruct (H x ltac:(now left)) as [Hk Hq].
    cbn [app subtotal_loop]. rewrite Hk. cbn [negb].
    apply has_sku_true in Hk as [p Hp]. unfold Inv.get_price. rewrite Hp.
    pose proof (float_of_int_in_range _ Hq) as Hf.
    destruct (float_of_int (OrderItem.qty x)) as [q|e]; [|discriminate].
    apply IH; [|exact Hu]. intros y Hy. apply H. now right.
Qed.

(** X24: [calculate_subtotal] returns a subtotal whenever every item names a
    known product and no quantity is beyond the range of floats (at most
    2^1023 in magnitude); and when the first item that names an unknown
    product comes after such items, it raises the lookup error that names
    that product. An order without items has subtotal zero. *)
Theorem calculate_subtotal_outcomes (order : Order.t) (inv : Inventory) :
  ((forall it, In it (Order.items order) ->
      Inv.has_sku inv (OrderItem.sku it) = true
      /\ - 2 ^ 1023 <= OrderItem.qty it <= 2 ^ 1023) ->
   is_Ok (calculate_subtotal order inv) = true)
  /\ (forall pre it post,
        Order.items order = (pre ++ it :: post)%list ->
        (forall x, In x pre ->
           Inv.has_sku inv (OrderItem.sku x) = true
           /\ - 2 ^ 1023 <= OrderItem.qty x <= 2 ^ 1023) ->
        Inv.has_sku inv (OrderItem.sku it) = false ->
        calculate_subtotal order inv
        = Raise (KeyError ("unknown sku: " ++ OrderItem.sku it)%string))
  /\ (Order.items order = [] -> calculate_subtotal order inv = Ok 0%float).
Proof.
  unfold calculate_subtotal. split; [|split].
  - apply subtotal_loop_known.
  - intros pre it post -> Hpre Hu. now apply subtotal_loop_unknown.
  - now intros ->.
Qed.

Lemma small_in_float_range n :
  - 1024 <= n <= 1024 -> - 2 ^ 1023 <= n <= 2 ^ 1023.
Proof.
  assert (2 ^ 10 <= 2 ^ 1023) by (apply Z.pow_le_mono_r; lia).
  change (2 ^ 10) with 1024 in *. lia.
Qed.

Lemma calculate_subtotal_outcomes_witness :
  is_Ok (calculate_subtotal demo_order demo_inventory) = true
  /\ calculate_subtotal unknown_order demo_inventory
     = Raise (KeyError "unknown sku: NOPE").
Proof.
  pose proof (calculate_subtotal_outcomes demo_order demo_inventory) as (Hok & _).
  pose proof (calculate_subtotal_outcomes unknown_order demo_inventory) as (_ & Hu & _).
  split.
  - apply Hok. intros it [<-|[<-|[]]]; (split; [reflexivity|]);
      apply small_in_float_range; cbn [OrderItem.qty]; lia.
  - apply (Hu [OrderItem.mk "SKU1" 1] (OrderItem.mk "NOPE" 1) []); [reflexivity| |reflexivity].
    intros x [<-|[]]. split; [reflexivity|].
    apply small_in_float_range; cbn [OrderItem.qty]; lia.
Defined.

(** ** When an order goes through *)

Lemma ordered_qty_nonneg sku items :
  (forall it, In it items -> 0 < OrderItem.qty it) -> 0 <= ordered_qty sku items.
Proof.
  induction items as [|x items IH]; intros H; cbn [ordered_qty]; [lia|].
  specialize (IH ltac:(intros it Hit; apply H; now right)).
  specialize (H x ltac:(now left)).
  case_bool_decide; lia.
Qed.

Lemma ordered_qty_item it items :
  (forall x, In x items -> 0 < OrderItem.qty x) -> In it items ->
  OrderItem.qty it <= ordered_qty (OrderItem.sku it) items.
Proof.
  induction items as [|x items IH]; intros H Hin; [destruct Hin|].
  cbn [ordered_qty].
  assert (Hrest : forall y, In y items -> 0 < OrderItem.qty y)
    by (intros y Hy; apply H; now right).
  pose proof (ordered_qty_nonneg (OrderItem.sku it) items Hrest).
  destruct Hin as [->|Hin].
  - rewrite bool_decide_eq_true_2 by reflexivity. lia.
  - specialize (IH Hrest Hin). specialize (H x ltac:(now left)).
    case_bool_decide; lia.
Qed.

Lemma remove_loop_succeeds items : forall inv,
  (forall it, In it items ->
     0 < OrderItem.qty it
     /\ ordered_qty (OrderItem.sku it) items <= Inv.get_stock inv (OrderItem.sku it)) ->
  exists inv',
    for_each (fun it => Inv.remove_stock (OrderItem.sku it) (OrderItem.qty it)) items inv
    = (Ok tt, inv').
Proof.
  induction items as [|x items IH]; intros inv H; [now exists inv|].
  assert (Hpos : forall y, In y (x :: items) -> 0 < OrderItem.qty y)
    by (intros y Hy; now apply H).
  destruct (H x ltac:(now left)) as [Hq Hs].
  pose proof (ordered_qty_item x (x :: items) Hpos ltac:(now left)) as Hx.
  destruct (remove_stock_effect inv (OrderItem.sku x) (OrderItem.qty x) Hq ltac:(lia))
    as (inv1 & E & Hst & Ho & _).
  rewrite remove_loop_cons, E. apply IH. intros it Hit.
  destruct (H it ltac:(now right)) as [Hqi Hsi]. split; [exact Hqi|].
  cbn [ordered_qty] in Hsi.
  destruct (decide (OrderItem.sku x = OrderItem.sku it)) as [Heq|Hne].
  - rewrite bool_decide_eq_true_2 in Hsi by exact Heq. rewrite <- Heq in *. lia.
  - rewrite bool_decide_eq_false_2 in Hsi by exact Hne. rewrite Ho by congruence. lia.
Qed.

Lemma validate_items_all inv items :
  (forall it, In it items ->
     Inv.has_sku inv (OrderItem.sku it) = true
     /\ OrderItem.qty it <= Inv.get_stock inv (OrderItem.sku it)) ->
  validate_items inv items = Ok tt.
Proof.
  induction items as [|x items IH]; intros H; [reflexivity|].
  destruct (H x ltac:(now left)) as [Hk Hs]. cbn. rewrite Hk. cbn.
  destruct (Z.ltb_spec (Inv.get_stock inv (OrderItem.sku x)) (OrderItem.qty x)); [lia|].
  apply IH. intros it Hit. apply H. now right.
Qed.

(** X25: an order goes through whenever every item names a known product
    with a positive quantity, the quantities listed for each product add up
    to no more than its stock, the subtotal can be computed, and the grand
    total is positive and within the payer's balance; the payer is then
    charged the grand total. With X10 this makes the conditions on the
    items exact. *)
Theorem process_order_succeeds now order inv payer subtotal :
  (forall it, In it (Order.items order) ->
     Inv.has_sku inv (OrderItem.sku it) = true
     /\ 0 < OrderItem.qty it
     /\ ordered_qty (OrderItem.sku it) (Order.items order)
        <= Inv.get_stock inv (OrderItem.sku it)) ->
  calculate_subtotal order inv = Ok subtotal ->
  (grand_total_of (apply_coupon subtotal (Order.coupon_code order)) <=? 0)%float = false ->
  (balance payer <? grand_total_of (apply_coupon subtotal (Order.coupon_code order)))%float
  = false ->
  exists receipt inv',
    process_order now order (inv, payer)
    = (Ok receipt,
       (inv', mkBankAccount (owner payer)
                (balance payer
                 - grand_total_of (apply_coupon subtotal (Order.coupon_code order)))%float))
    /\ Receipt.subtotal receipt = subtotal.
Proof.
  intros Hitems Hsub Hpos Hfunds.
  assert (Hq : forall y, In y (Order.items order) -> 0 < OrderItem.qty y)
    by (intros y Hy; now apply Hitems).
  assert (Hv : validate_items inv (Order.items order) = Ok tt).
  { apply validate_items_all. intros it Hit. destruct (Hitems it Hit) as (Hk & _ & Hs).
    split; [exact Hk|]. pose proof (ordered_qty_item it _ Hq Hit). lia. }
  destruct (remove_loop_succeeds (Order.items order) inv) as [inv' Hl].
  { intros it Hit. destruct (Hitems it Hit) as (_ & H1 & H2). now split. }
  rewrite process_order_unfold, Hv, Hsub. cbv zeta.
  rewrite withdraw_cases, Hpos, Hfunds, Hl.
  eexists _, inv'. split; reflexivity.
Qed.

Lemma process_order_succeeds_witness :
  exists receipt inv',
    process_order "2026-01-01T00:00:00" demo_order (demo_inventory, Bank.new "Shaik" 500%float)
    = (Ok receipt,
       (inv', mkBankAccount "Shaik"
                (500 - grand_total_of (apply_coupon 120 (Some "SAVE10")))%float))
    /\ Receipt.subtotal receipt = 120%float.
Proof.
  apply (process_order_succeeds "2026-01-01T00:00:00" demo_order demo_inventory
           (Bank.new "Shaik" 500%float) 120%float).
  - intros it [<-|[<-|[]]]; repeat split; vm_compute; congruence.
  - vm_compute. reflexivity.
  - vm_compute. reflexivity.
  - vm_compute. reflexivity.
Defined.
